(** * A shallow embedding of [main.py]: an MCP client driven by a chat model

    The program is effectful Python.  Its effects are threaded explicitly:
    a computation takes the program state (the outside world, the fields of
    the [MCPClient] object and the log of every interaction with a
    collaborator) and returns an outcome together with the new state.  An
    outcome is a returned value, a raised exception, or [Pending] when the
    interactive loop has not finished within the given number of iterations.

    The collaborators (the MCP session and its transport, the chat-completion
    client, the JSON decoder, the console) are not part of the program: they
    are the fields of a record over an arbitrary type of worlds, and every
    theorem holds for all of them. *)

From Stdlib Require Import String Ascii List ZArith Bool Lia.
From Stdlib Require Import SpecFloat.
From Stdlib Require Import RelationClasses.
Import ListNotations.

Set Implicit Arguments.
#[local] Set Warnings "-register-all".
#[local] Open Scope string_scope.

(** ** Python values *)

Module Py.

(** What [json.load] and [json.loads] produce.  A dict is the list of its
    items in insertion order. *)
Inductive value : Type :=
| VNone
| VBool (b : bool)
| VInt (z : Z)
| VFloat (f : spec_float)
| VStr (s : string)
| VList (l : list value)
| VDict (items : list (string * value)).

(** Truth value of an object, as [not x] and [if x] test it. *)
Definition truthy (v : value) : bool :=
  match v with
  | VNone => false
  | VBool b => b
  | VInt z => negb (Z.eqb z 0)
  | VFloat (S754_zero _) => false
  | VFloat _ => true
  | VStr s => negb (String.eqb s "")
  | VList l => match l with [] => false | _ :: _ => true end
  | VDict items => match items with [] => false | _ :: _ => true end
  end.

(** [type(v).__name__] *)
Definition type_name (v : value) : string :=
  match v with
  | VNone => "NoneType"
  | VBool _ => "bool"
  | VInt _ => "int"
  | VFloat _ => "float"
  | VStr _ => "str"
  | VList _ => "list"
  | VDict _ => "dict"
  end.

(** Lookup in the items of a dict. *)
Fixpoint lookup (items : list (string * value)) (key : string) : option value :=
  match items with
  | [] => None
  | (k, v) :: rest => if String.eqb k key then Some v else lookup rest key
  end.

(** Exception classes.  The first six are the ones the program or the
    interpreter raises on its own; the last two stand for whatever a
    collaborator raises, split by whether the class derives from
    [Exception]. *)
Inductive exn_class : Type :=
| ValueError
| TypeError
| IndexError
| AttributeError
| FileNotFoundError
| JSONDecodeError
| KeyboardInterrupt
| CancelledError
| OtherException (name : string)
| OtherBaseException (name : string).

(** An exception object: its class and [str(e)]. *)
Record exn : Type := Exn { exn_cls : exn_class; exn_str : string }.

(** [isinstance(e, Exception)]: what [except Exception] catches.
    [KeyboardInterrupt] and [asyncio.CancelledError] derive from
    [BaseException] only. *)
Definition is_Exception (e : exn) : bool :=
  match exn_cls e with
  | KeyboardInterrupt | CancelledError | OtherBaseException _ => false
  | _ => true
  end.

(** The result of calling a collaborator: it raises or it returns. *)
Definition result (A : Type) : Type := (exn + A)%type.

Definition nl : string := String (ascii_of_nat 10) "".

Definition dquote : string := String (ascii_of_nat 34) "".

(** A [str] is held as its UTF-8 encoding.

    [str.strip()] removes the white space of Unicode from both ends: the
    characters U+0009 to U+000D, U+001C to U+0020, U+0085, U+00A0, U+1680,
    U+2000 to U+200A, U+2028, U+2029, U+202F, U+205F and U+3000.  The first
    ten are one byte each, the next two are two bytes and the others are
    three bytes. *)
Definition is_space (c : ascii) : bool :=
  let n := nat_of_ascii c in
  ((9 <=? n) && (n <=? 13) || (28 <=? n) && (n <=? 32))%nat.

Definition is_space2 (c1 c2 : ascii) : bool :=
  let b1 := nat_of_ascii c1 in
  let b2 := nat_of_ascii c2 in
  ((b1 =? 194) && ((b2 =? 133) || (b2 =? 160)))%nat.

Definition is_space3 (c1 c2 c3 : ascii) : bool :=
  let b1 := nat_of_ascii c1 in
  let b2 := nat_of_ascii c2 in
  let b3 := nat_of_ascii c3 in
  ((b1 =? 225) && (b2 =? 154) && (b3 =? 128)
   || (b1 =? 226) && (b2 =? 128)
      && ((128 <=? b3) && (b3 <=? 138) || (b3 =? 168) || (b3 =? 169) || (b3 =? 175))
   || (b1 =? 226) && (b2 =? 129) && (b3 =? 159)
   || (b1 =? 227) && (b2 =? 128) && (b3 =? 128))%nat.

(** The white space at the start is removed one character at a time. *)
Fixpoint lstrip (s : string) : string :=
  match s with
  | String c1 rest1 =>
      if is_space c1 then lstrip rest1
      else
        match rest1 with
        | String c2 rest2 =>
            if is_space2 c1 c2 then lstrip rest2
            else
              match rest2 with
              | String c3 rest3 => if is_space3 c1 c2 c3 then lstrip rest3 else s
              | EmptyString => s
              end
        | EmptyString => s
        end
  | EmptyString => EmptyString
  end.

(** The same on a string whose bytes are in the reverse order: the last
    byte of a character comes first. *)
Fixpoint lstrip_reversed (s : string) : string :=
  match s with
  | String c3 rest1 =>
      if is_space c3 then lstrip_reversed rest1
      else
        match rest1 with
        | String c2 rest2 =>
            if is_space2 c2 c3 then lstrip_reversed rest2
            else
              match rest2 with
              | String c1 rest3 =>
                  if is_space3 c1 c2 c3 then lstrip_reversed rest3 else s
              | EmptyString => s
              end
        | EmptyString => s
        end
  | EmptyString => EmptyString
  end.

Fixpoint reverse_onto (s acc : string) : string :=
  match s with
  | String c rest => reverse_onto rest (String c acc)
  | EmptyString => acc
  end.

Definition reverse (s : string) : string := reverse_onto s EmptyString.

Definition rstrip (s : string) : string :=
  reverse (lstrip_reversed (reverse s)).

Definition strip (s : string) : string := rstrip (lstrip s).

(** [str.lower()], as far as the program uses it: the lowered line is only
    compared with a word of four ASCII letters, and no character outside
    ASCII lowers to one of these letters (the only character that lowers to
    more than one, U+0130, lowers to [i] and a combining dot), so lowering
    the ASCII letters and leaving the other bytes gives the comparison the
    value it has in Python. *)
Definition lower_ascii (c : ascii) : ascii :=
  let n := nat_of_ascii c in
  if ((65 <=? n) && (n <=? 90))%nat then ascii_of_nat (n + 32) else c.

Fixpoint lower (s : string) : string :=
  match s with
  | String c rest => String (lower_ascii c) (lower rest)
  | EmptyString => EmptyString
  end.

End Py.
Import Py.

(** ** The types of the two client libraries *)

(** *** MCP *)

(** [mcp.types.Tool] *)
Record Tool : Type := mkTool {
  tool_name : string;
  tool_description : option string;
  tool_inputSchema : value
}.

(** A block of a tool result.  Only a text block has the attribute [text]. *)
Inductive ContentBlock : Type :=
| TextContent (text : string)
| ImageContent (data mimeType : string)
| EmbeddedResource (uri : string).

(** [mcp.types.CallToolResult]: the blocks, and the flag by which a server
    reports that the tool itself failed. *)
Record CallToolResult : Type := mkCallToolResult {
  result_content : list ContentBlock;
  result_isError : bool
}.

(** [mcp.StdioServerParameters(command=, args=, env=)] *)
Record StdioServerParameters : Type := mkStdioServerParameters {
  sp_command : value;
  sp_args : value;
  sp_env : value
}.

(** *** OpenAI *)

Record FunctionCall : Type := mkFunctionCall {
  fn_name : string;
  fn_arguments : string
}.

Record ToolCall : Type := mkToolCall {
  tc_id : string;
  tc_function : FunctionCall
}.

Record ChatCompletionMessage : Type := mkChatCompletionMessage {
  msg_content : option string;
  msg_tool_calls : option (list ToolCall)
}.

Record Choice : Type := mkChoice {
  finish_reason : string;
  message : ChatCompletionMessage
}.

Record ChatCompletion : Type := mkChatCompletion {
  choices : list Choice
}.

(** ** The dicts [process_query] builds *)

(** One entry of [available_tools]:
    [{"type": "function",
      "function": {"name": ..., "description": ..., "input_schema": ...}}] *)
Record FunctionDescriptor : Type := mkFunctionDescriptor {
  fd_name : string;
  fd_description : option string;
  fd_input_schema : value
}.

Record AvailableTool : Type := mkAvailableTool {
  at_type : string;
  at_function : FunctionDescriptor
}.

(** One entry of [messages]. *)
Inductive Message : Type :=
| UserMessage (content : string)
    (* {"role": "user", "content": query} *)
| ModelMessage (dump : ChatCompletionMessage)
    (* content.message.model_dump() *)
| ToolMessage (content : string) (tool_call_id : string).
    (* {"role": "tool", "content": ..., "tool_call_id": ...} *)

(** ** Context managers and the log *)

(** The two context managers the program enters:
    [stdio_client(server_params)], which owns the child process, and
    [ClientSession(self.stdio, self.write)]. *)
Inductive ContextManager : Type :=
| Transport
| Session.

(** What [__aexit__] does: it returns a false value, it returns a true value
    (the pending exception is suppressed), or it raises. *)
Inductive ExitResult : Type :=
| ExitFalse
| ExitTrue
| ExitRaise (e : exn).

(** What [print] is given. *)
Inductive Output : Type :=
| OutText (s : string)
| OutLabelled (label : string) (v : value)
| OutNames (label : string) (names : list string)
| OutCallingTool (tool_name : string) (tool_args : value).

(** One interaction with a collaborator, logged when it is started.
    [EvEnter] is the call of [__aenter__], [EvPushExit] the registration of
    the manager's exit on the exit stack once it is entered, [EvExit] the
    call of [__aexit__] with the exception pending at that moment. *)
Inductive Event : Type :=
| EvReadConfig (path : string)
| EvOpenAI (api_key : string) (base_url : option string)
| EvEnter (c : ContextManager) (params : option StdioServerParameters)
| EvPushExit (c : ContextManager)
| EvExit (c : ContextManager) (pending : option exn)
| EvInitialize
| EvListTools
| EvCallTool (name : string) (arguments : value)
| EvCreate (model : option string) (messages : list Message)
    (tools : option (list AvailableTool))
| EvInput (prompt : string)
| EvPrint (o : Output).

(** ** Collaborators *)

(** Everything the program calls and does not define.  A call that touches
    the outside takes the world and returns the next one; [json_loads],
    [getenv] and the validation done by the constructor of
    [StdioServerParameters] only read. *)
Record Collaborators (W : Type) : Type := mkCollaborators {
  (* json.loads(s) *)
  json_loads : string -> result value;
  (* with open(path, 'r') as f: json.load(f) *)
  read_config : string -> W -> result value * W;
  (* os.getenv(name) *)
  getenv : string -> W -> option string;
  (* OpenAI(api_key=, base_url=) *)
  openai_new : string -> option string -> W -> result unit * W;
  (* StdioServerParameters(command=, args=, env=) *)
  server_params_new : value -> value -> value -> result StdioServerParameters;
  (* stdio_client(server_params).__aenter__() *)
  transport_aenter : StdioServerParameters -> W -> result unit * W;
  (* ClientSession(self.stdio, self.write).__aenter__() *)
  session_aenter : W -> result unit * W;
  (* cm.__aexit__ applied to the details of the pending exception *)
  aexit : ContextManager -> option exn -> W -> ExitResult * W;
  (* self.session.initialize() *)
  session_initialize : W -> result unit * W;
  (* self.session.list_tools().tools *)
  session_list_tools : W -> result (list Tool) * W;
  (* self.session.call_tool(name, arguments) *)
  session_call_tool : string -> value -> W -> result CallToolResult * W;
  (* self.client.chat.completions.create(model=, messages=, tools=) *)
  completions_create :
    option string -> list Message -> option (list AvailableTool) ->
    W -> result ChatCompletion * W;
  (* input(prompt) *)
  input : string -> W -> result string * W
}.

(** ** Program state *)

(** The world, the fields of the [MCPClient] object, and the log.
    [exit_stack] is the callback stack of the [AsyncExitStack], most recently
    entered first; [session] tells whether [self.session] is set. *)
Record State (W : Type) : Type := mkState {
  world : W;
  exit_stack : list ContextManager;
  config : value;
  model : option string;
  session : bool;
  log : list Event
}.

(** ** Outcomes and the monad of computations *)

Inductive outcome (A : Type) : Type :=
| Returned (a : A)
| Raised (e : exn)
| Pending.

Arguments Raised {A} e.
Arguments Pending {A}.

Definition M (W A : Type) : Type := State W -> outcome A * State W.

Definition ret {W A : Type} (a : A) : M W A := fun st => (Returned a, st).

Definition raise {W A : Type} (e : exn) : M W A := fun st => (Raised e, st).

Definition pending {W A : Type} : M W A := fun st => (Pending, st).

Definition bind {W A B : Type} (c : M W A) (k : A -> M W B) : M W B :=
  fun st =>
    match c st with
    | (Returned a, st') => k a st'
    | (Raised e, st') => (Raised e, st')
    | (Pending, st') => (Pending, st')
    end.

Declare Scope py_scope.
Delimit Scope py_scope with py.
Notation "x <- c ;; k" := (bind c (fun x => k))
  (at level 61, c at next level, right associativity) : py_scope.
Notation "' p <- c ;; k" := (bind c (fun p => k))
  (at level 61, p pattern, c at next level, right associativity) : py_scope.
Notation "c ;; k" := (bind c (fun _ => k))
  (at level 61, right associativity) : py_scope.
#[local] Open Scope py_scope.

(** [try: body except Exception as e: handler(e)] *)
Definition try_except_Exception {W A : Type}
    (body : M W A) (handler : exn -> M W A) : M W A :=
  fun st =>
    match body st with
    | (Raised e, st') =>
        if is_Exception e then handler e st' else (Raised e, st')
    | other => other
    end.

(** [try: body finally: final].  The final block runs when the body returns
    and when it raises; an exception raised by the final block is the one
    that leaves the statement. *)
Definition try_finally {W A : Type} (body : M W A) (final : M W unit) : M W A :=
  fun st =>
    match body st with
    | (Pending, st') => (Pending, st')
    | (r, st') =>
        match final st' with
        | (Returned _, st'') => (r, st'')
        | (Raised e, st'') => (Raised e, st'')
        | (Pending, st'') => (Pending, st'')
        end
    end.

(** State updates. *)
Definition set_world {W : Type} (w : W) (st : State W) : State W :=
  mkState w (exit_stack st) (config st) (model st) (session st) (log st).

Definition set_exit_stack {W : Type} (s : list ContextManager) (st : State W) : State W :=
  mkState (world st) s (config st) (model st) (session st) (log st).

Definition set_config {W : Type} (c : value) (st : State W) : State W :=
  mkState (world st) (exit_stack st) c (model st) (session st) (log st).

Definition set_model {W : Type} (m : option string) (st : State W) : State W :=
  mkState (world st) (exit_stack st) (config st) m (session st) (log st).

Definition set_session {W : Type} (b : bool) (st : State W) : State W :=
  mkState (world st) (exit_stack st) (config st) (model st) b (log st).

Definition record {W : Type} (ev : Event) (st : State W) : State W :=
  mkState (world st) (exit_stack st) (config st) (model st) (session st)
    (log st ++ [ev]).

Definition modify {W : Type} (f : State W -> State W) : M W unit :=
  fun st => (Returned tt, f st).

Definition gets {W A : Type} (f : State W -> A) : M W A :=
  fun st => (Returned (f st), st).

(** A call to a collaborator: it is logged, then it runs on the world and
    returns or raises. *)
Definition call {W A : Type} (ev : Event) (f : W -> result A * W) : M W A :=
  fun st =>
    let st1 := record ev st in
    let (r, w) := f (world st1) in
    match r with
    | inl e => (Raised e, set_world w st1)
    | inr a => (Returned a, set_world w st1)
    end.

(** A result that needs no world. *)
Definition lift {W A : Type} (r : result A) : M W A :=
  match r with
  | inl e => raise e
  | inr a => ret a
  end.

Definition print {W : Type} (o : Output) : M W unit :=
  modify (record (EvPrint o)).

(** [l[0]] *)
Definition index0 {W A : Type} (l : list A) : M W A :=
  match l with
  | x :: _ => ret x
  | [] => raise (Exn IndexError "list index out of range")
  end.

(** [o[0]] for an optional list: [None] is not subscriptable. *)
Definition subscript0 {W A : Type} (o : option (list A)) : M W A :=
  match o with
  | Some l => index0 l
  | None => raise (Exn TypeError "'NoneType' object is not subscriptable")
  end.

(** [block.text] *)
Definition text_of {W : Type} (b : ContentBlock) : M W string :=
  match b with
  | TextContent t => ret t
  | ImageContent _ _ =>
      raise (Exn AttributeError "'ImageContent' object has no attribute 'text'")
  | EmbeddedResource _ =>
      raise (Exn AttributeError "'EmbeddedResource' object has no attribute 'text'")
  end.

(** [v.get(key, default)]: only a dict has the method. *)
Definition value_get {W : Type} (v : value) (key : string) (default : value) : M W value :=
  match v with
  | VDict items =>
      match lookup items key with
      | Some x => ret x
      | None => ret default
      end
  | _ =>
      raise (Exn AttributeError
               ("'" ++ type_name v ++ "' object has no attribute 'get'"))
  end.

(** [next(iter(v.items()))]: only a dict has the method; an empty one makes
    [next] raise [StopIteration]. *)
Definition first_item {W : Type} (v : value) : M W (string * value) :=
  match v with
  | VDict (item :: _) => ret item
  | VDict [] => raise (Exn (OtherException "StopIteration") "")
  | _ =>
      raise (Exn AttributeError
               ("'" ++ type_name v ++ "' object has no attribute 'items'"))
  end.

(** [v[key]] for a string key. *)
Definition value_getitem {W : Type} (v : value) (key : string) : M W value :=
  match v with
  | VDict items =>
      match lookup items key with
      | Some x => ret x
      | None => raise (Exn (OtherException "KeyError") ("'" ++ key ++ "'"))
      end
  | VList _ => raise (Exn TypeError "list indices must be integers or slices, not str")
  | VStr _ => raise (Exn TypeError "string indices must be integers, not 'str'")
  | _ => raise (Exn TypeError ("'" ++ type_name v ++ "' object is not subscriptable"))
  end.

(** How one pass through the body of [while True] ends. *)
Inductive LoopControl : Type :=
| Break
| Continue.

(** ** The program *)

Section Program.

Variable W : Type.
Variable env : Collaborators W.

(** Use of [self.session]: [None] has no attributes. *)
Definition session_attr (attr : string) : M W unit :=
  has <- gets (@session W) ;;
  if has : bool then ret tt
  else raise (Exn AttributeError
                ("'NoneType' object has no attribute '" ++ attr ++ "'")).

(** [MCPClient.load_config] *)
Definition load_config (config_path : string) : M W value :=
  fun st =>
    match call (EvReadConfig config_path) (read_config env config_path) st with
    | (Raised e, st') =>
        match exn_cls e with
        | FileNotFoundError =>
            (Raised (Exn FileNotFoundError
                       ("❌ 配置文件 " ++ config_path ++ " 未找到")), st')
        | JSONDecodeError =>
            (Raised (Exn ValueError
                       ("❌ 配置文件 " ++ config_path ++ " 格式错误")), st')
        | _ => (Raised e, st')
        end
    | other => other
    end.

(** [MCPClient.__init__] *)
Definition init (config_path : string) : M W unit :=
  modify (set_exit_stack []) ;;
  loaded <- load_config config_path ;;
  modify (set_config loaded) ;;
  openai_api_key <- gets (fun st => getenv env "OPENAI_API_KEY" (world st)) ;;
  base_url <- gets (fun st => getenv env "BASE_URL" (world st)) ;;
  model_name <- gets (fun st => getenv env "MODEL" (world st)) ;;
  modify (set_model model_name) ;;
  match openai_api_key with
  | None | Some "" =>
      raise (Exn ValueError
               "❌ 未找到 OpenAI API Key，请在 .env 文件中设置 OPENAI_API_KEY")
  | Some key =>
      call (EvOpenAI key base_url) (openai_new env key base_url) ;;
      modify (set_session false)
  end.

(** [MCPClient.get_server_name_and_config] *)
Definition get_server_name_and_config : M W (string * value) :=
  try_except_Exception
    (self_config <- gets (@config W) ;;
     mcp_servers <- value_get self_config "mcpServers" (VDict []) ;;
     if negb (truthy mcp_servers) then
       raise (Exn ValueError "❌ 配置文件中未找到 MCP 服务器配置")
     else
       servers <- value_getitem self_config "mcpServers" ;;
       '(server_name, server_config) <- first_item servers ;;
       ret (server_name, server_config))
    (fun e =>
       raise (Exn ValueError ("❌ 获取服务器名称和配置失败: " ++ exn_str e))).

(** [self.exit_stack.enter_async_context(cm)]: the manager is entered, and
    its exit is pushed only when entering returned. *)
Definition enter_async_context (c : ContextManager)
    (params : option StdioServerParameters)
    (aenter : W -> result unit * W) : M W unit :=
  call (EvEnter c params) aenter ;;
  modify (fun st => record (EvPushExit c) (set_exit_stack (c :: exit_stack st) st)).

(** [MCPClient.connect_to_server] *)
Definition connect_to_server : M W unit :=
  '(server_name, server_config) <- get_server_name_and_config ;;
  print (OutText ("Connecting to server: " ++ server_name)) ;;
  command <- value_get server_config "command" VNone ;;
  args <- value_get server_config "args" (VList []) ;;
  env_ <- value_get server_config "env" (VDict []) ;;
  print (OutLabelled "Server Command:" command) ;;
  print (OutLabelled "Server Args:" args) ;;
  print (OutLabelled "Server Env:" env_) ;;
  server_params <- lift (server_params_new env command args env_) ;;
  enter_async_context Transport (Some server_params)
    (transport_aenter env server_params) ;;
  enter_async_context Session None (session_aenter env) ;;
  modify (set_session true) ;;
  session_attr "initialize" ;;
  call EvInitialize (session_initialize env) ;;
  session_attr "list_tools" ;;
  tools <- call EvListTools (session_list_tools env) ;;
  print (OutNames (nl ++ "Connected to server with tools:")
           (map tool_name tools)).

(** One element of the comprehension that builds [available_tools]. *)
Definition available_tool (tool : Tool) : AvailableTool :=
  mkAvailableTool "function"
    (mkFunctionDescriptor (tool_name tool) (tool_description tool)
       (tool_inputSchema tool)).

(** [MCPClient.process_query] *)
Definition process_query (query : string) : M W (option string) :=
  let messages := [UserMessage query] in
  session_attr "list_tools" ;;
  tools <- call EvListTools (session_list_tools env) ;;
  let available_tools := map available_tool tools in
  self_model <- gets (@model W) ;;
  response <- call (EvCreate self_model messages (Some available_tools))
                (completions_create env self_model messages
                   (Some available_tools)) ;;
  content <- index0 (choices response) ;;
  if String.eqb (finish_reason content) "tool_calls" then
    tool_call <- subscript0 (msg_tool_calls (message content)) ;;
    let tool_name := fn_name (tc_function tool_call) in
    tool_args <- lift (json_loads env (fn_arguments (tc_function tool_call))) ;;
    session_attr "call_tool" ;;
    result <- call (EvCallTool tool_name tool_args)
                (session_call_tool env tool_name tool_args) ;;
    print (OutCallingTool tool_name tool_args) ;;
    let messages := (messages ++ [ModelMessage (message content)])%list in
    block <- index0 (result_content result) ;;
    text <- text_of block ;;
    let messages := (messages ++ [ToolMessage text (tc_id tool_call)])%list in
    self_model <- gets (@model W) ;;
    response <- call (EvCreate self_model messages None)
                  (completions_create env self_model messages None) ;;
    final <- index0 (choices response) ;;
    ret (msg_content (message final))
  else
    ret (msg_content (message content)).

(** The body of [while True] in [chat_loop]. *)
Definition chat_loop_body : M W LoopControl :=
  try_except_Exception
    (line <- call (EvInput (nl ++ "Query: ")) (input env (nl ++ "Query: ")) ;;
     let query := strip line in
     if String.eqb (lower query) "quit" then ret Break
     else
       response <- process_query query ;;
       match response with
       | Some text => print (OutText (nl ++ text)) ;; ret Continue
       | None =>
           raise (Exn TypeError
                    ("can only concatenate str (not " ++ dquote ++ "NoneType"
                     ++ dquote ++ ") to str"))
       end)
    (fun e =>
       print (OutText (nl ++ "Error: " ++ exn_str e)) ;; ret Continue).

(** [while True]: at most [fuel] passes are run. *)
Fixpoint chat_loop_while (fuel : nat) : M W unit :=
  match fuel with
  | O => pending
  | S fuel' =>
      control <- chat_loop_body ;;
      match control with
      | Break => ret tt
      | Continue => chat_loop_while fuel'
      end
  end.

(** [MCPClient.chat_loop] *)
Definition chat_loop (fuel : nat) : M W unit :=
  print (OutText (nl ++ "MCP Client Started!")) ;;
  print (OutText "Type your queries or 'quit' to exit.") ;;
  chat_loop_while fuel.

(** The loop of [AsyncExitStack.__aexit__]: the callbacks are popped and
    called, last entered first, each with the exception that is pending at
    that moment.  A callback that raises makes its exception the pending
    one, a callback that returns a true value clears it, and the remaining
    callbacks are called in either case. *)
Fixpoint exit_callbacks (callbacks : list ContextManager) (exc : option exn)
    (st : State W) : option exn * State W :=
  match callbacks with
  | [] => (exc, st)
  | cb :: rest =>
      let st1 := record (EvExit cb exc) (set_exit_stack rest st) in
      let (r, w) := aexit env cb exc (world st1) in
      let st2 := set_world w st1 in
      match r with
      | ExitFalse => exit_callbacks rest exc st2
      | ExitTrue => exit_callbacks rest None st2
      | ExitRaise new_exc => exit_callbacks rest (Some new_exc) st2
      end
  end.

(** [AsyncExitStack.aclose]: the loop started with no pending exception;
    the exception still pending at the end is raised.  Started this way, the
    loop has an exception pending exactly when the library's flag
    [pending_raise] is set, so the flag is not kept apart. *)
Definition aclose : M W unit :=
  fun st =>
    match exit_callbacks (exit_stack st) None st with
    | (Some e, st') => (Raised e, st')
    | (None, st') => (Returned tt, st')
    end.

(** [MCPClient.cleanup] *)
Definition cleanup : M W unit := aclose.

(** [main] *)
Definition main (fuel : nat) : M W unit :=
  init "config.json" ;;
  try_finally
    (connect_to_server ;; chat_loop fuel)
    cleanup.

End Program.

(** ** Reading the log *)

(** The events a computation added: the log of the final state without the
    log of the initial one. *)
Definition events_since {W : Type} (st st' : State W) : list Event :=
  skipn (length (log st)) (log st').

Definition is_call_tool (ev : Event) : bool :=
  match ev with EvCallTool _ _ => true | _ => false end.

Definition is_create (ev : Event) : bool :=
  match ev with EvCreate _ _ _ => true | _ => false end.

Definition is_exit (ev : Event) : bool :=
  match ev with EvExit _ _ => true | _ => false end.

(** An event that is neither a registration on the exit stack nor an exit. *)
Definition plain (ev : Event) : bool :=
  match ev with
  | EvPushExit _ | EvExit _ _ => false
  | _ => true
  end.

(** The tool calls and the model calls of a log, in order. *)
Definition tool_calls_of (evs : list Event) : list Event := filter is_call_tool evs.

Definition model_calls_of (evs : list Event) : list Event := filter is_create evs.

(** The managers registered on the exit stack and the managers exited, in
    the order of the log. *)
Fixpoint pushed (evs : list Event) : list ContextManager :=
  match evs with
  | [] => []
  | EvPushExit c :: rest => c :: pushed rest
  | _ :: rest => pushed rest
  end.

Fixpoint exited (evs : list Event) : list ContextManager :=
  match evs with
  | [] => []
  | EvExit c _ :: rest => c :: exited rest
  | _ :: rest => exited rest
  end.

(** ** The invariant of a conversation

    A tool-result turn comes directly after a model turn, and that model
    turn carries a tool-invocation request with the token the tool-result
    turn names. *)

Definition requests (turn : ChatCompletionMessage) (token : string) : bool :=
  match msg_tool_calls turn with
  | Some calls => existsb (fun tc => String.eqb (tc_id tc) token) calls
  | None => false
  end.

Definition follows (previous : option Message) (m : Message) : bool :=
  match m with
  | ToolMessage _ token =>
      match previous with
      | Some (ModelMessage turn) => requests turn token
      | _ => false
      end
  | _ => true
  end.

Fixpoint history_ok_after (previous : option Message) (messages : list Message) : bool :=
  match messages with
  | [] => true
  | m :: rest => follows previous m && history_ok_after (Some m) rest
  end.

Definition history_ok (messages : list Message) : bool :=
  history_ok_after None messages.

(** ** The paths of a query *)

Section Paths.

Variable W : Type.
Variable env : Collaborators W.

(** The first model call of a query, in a state whose session returned
    [tools]. *)
Definition first_request (query : string) (st : State W) (tools : list Tool) : Event :=
  EvCreate (model st) [UserMessage query] (Some (map available_tool tools)).

(** The history sent with the second model call. *)
Definition tool_history (query : string) (content : Choice) (text : string)
    (tool_call : ToolCall) : list Message :=
  [UserMessage query; ModelMessage (message content);
   ToolMessage text (tc_id tool_call)].

(** The query reaches the first reply of the model: the session is set,
    it lists [tools], and the model answers with [content] first. *)
Definition first_reply (query : string) (st : State W) (tools : list Tool)
    (content : Choice) (w : W) : Prop :=
  session st = true /\
  exists w1 response,
    session_list_tools env (world st) = (inr tools, w1) /\
    completions_create env (model st) [UserMessage query]
      (Some (map available_tool tools)) w1 = (inr response, w) /\
    hd_error (choices response) = Some content.

End Paths.

(** ** What a computation does to the exit stack

    [steps ps c]: whatever the state and the collaborators, the computation
    [c] extends the log, exits no context manager, and the managers it
    registers are on top of the exit stack afterwards, last one first.
    When [c] returns it has registered exactly [ps], in this order; when it
    raises or is still running it has registered the first few of [ps]. *)

Definition prefix_of (A : Type) (l whole : list A) : Prop :=
  exists rest, whole = (l ++ rest)%list.

Definition steps (W A : Type) (ps : list ContextManager) (c : M W A) : Prop :=
  forall st : State W,
    exists new,
      log (snd (c st)) = (log st ++ new)%list /\
      exited new = [] /\
      exit_stack (snd (c st)) = (rev (pushed new) ++ exit_stack st)%list /\
      match fst (c st) with
      | Returned _ => pushed new = ps
      | _ => prefix_of (pushed new) ps
      end.

(** ** What teardown asks of the context managers

    The exits of a stack of context managers, applied to the world one
    after the other from the top of the stack: each exit is given the
    exception that is pending when its turn comes and the world the exit
    before it left.  [unwind] gives the exception pending at the end, the
    world at the end and the exits in order. *)

Definition pending_after (exc : option exn) (r : ExitResult) : option exn :=
  match r with
  | ExitFalse => exc
  | ExitTrue => None
  | ExitRaise e => Some e
  end.

Definition outcome_of (exc : option exn) : outcome unit :=
  match exc with
  | Some e => Raised e
  | None => Returned tt
  end.

Section Unwind.

Variable W : Type.
Variable env : Collaborators W.

Fixpoint unwind (managers : list ContextManager) (exc : option exn) (w : W)
    : option exn * W * list Event :=
  match managers with
  | [] => (exc, w, [])
  | c :: below =>
      let (r, w') := aexit env c exc w in
      let '(final, w'', exits) := unwind below (pending_after exc r) w' in
      (final, w'', EvExit c exc :: exits)
  end.

End Unwind.

(** ** Concrete collaborators

    A world that plays a script: the model's replies and the lines typed at
    the prompt are consumed in order, everything else answers the same way
    each time. *)

Module Scenario.

Record Script : Type := mkScript {
  s_config : result value;
  s_api_key : option string;
  s_tools : result (list Tool);
  s_tool_result : result CallToolResult;
  s_session_exit : ExitResult;
  s_transport_exit : ExitResult
}.

Record stage : Type := mkStage {
  replies : list (result ChatCompletion);
  lines : list (result string)
}.

(** A decoder that knows the empty object only. *)
Definition decode (s : string) : result value :=
  if String.eqb s "{}" then inr (VDict [])
  else inl (Exn JSONDecodeError "Expecting value: line 1 column 1 (char 0)").

Definition next_reply (w : stage) : result ChatCompletion * stage :=
  match replies w with
  | r :: rest => (r, mkStage rest (lines w))
  | [] => (inl (Exn (OtherException "APIConnectionError") "Connection error."), w)
  end.

Definition next_line (w : stage) : result string * stage :=
  match lines w with
  | l :: rest => (l, mkStage (replies w) rest)
  | [] => (inl (Exn (OtherException "EOFError") "EOF when reading a line"), w)
  end.

Definition play (s : Script) : Collaborators stage :=
  {| json_loads := decode;
     read_config := fun _ w => (s_config s, w);
     getenv := fun name _ =>
       if String.eqb name "OPENAI_API_KEY" then s_api_key s
       else if String.eqb name "MODEL" then Some "gpt-4o"
       else None;
     openai_new := fun _ _ w => (inr tt, w);
     server_params_new := fun command args env_ =>
       inr (mkStdioServerParameters command args env_);
     transport_aenter := fun _ w => (inr tt, w);
     session_aenter := fun w => (inr tt, w);
     aexit := fun c _ w =>
       match c with
       | Session => (s_session_exit s, w)
       | Transport => (s_transport_exit s, w)
       end;
     session_initialize := fun w => (inr tt, w);
     session_list_tools := fun w => (s_tools s, w);
     session_call_tool := fun _ _ w => (s_tool_result s, w);
     completions_create := fun _ _ _ w => next_reply w;
     input := fun _ w => next_line w |}.

(** The catalog and the replies of the examples. *)
Definition list_tables : Tool :=
  mkTool "list_tables" (Some "List the tables of the database")
    (VDict [("type", VStr "object")]).

Definition run_query : Tool :=
  mkTool "run_query" None (VDict [("type", VStr "object")]).

Definition call_1 : ToolCall := mkToolCall "call_1" (mkFunctionCall "list_tables" "{}").

Definition call_2 : ToolCall := mkToolCall "call_2" (mkFunctionCall "run_query" "{}").


Definition tool_reply (calls : list ToolCall) : ChatCompletion :=
  mkChatCompletion [mkChoice "tool_calls" (mkChatCompletionMessage None (Some calls))].

Definition text_reply (text : string) : ChatCompletion :=
  mkChatCompletion [mkChoice "stop" (mkChatCompletionMessage (Some text) None)].

Definition tables : CallToolResult :=
  mkCallToolResult [TextContent "orders"; TextContent "users"] false.

Definition one_server : value :=
  VDict [("mcpServers",
          VDict [("mcp-clickhouse",
                  VDict [("command", VStr "uv"); ("args", VList [VStr "run"])]);
                 ("second", VDict [("command", VStr "node")])])].

Definition script (tool_result : result CallToolResult)
    (session_exit transport_exit : ExitResult) : Script :=
  mkScript (inr one_server) (Some "sk-test") (inr [list_tables; run_query])
    tool_result session_exit transport_exit.

Definition calm : Script := script (inr tables) ExitFalse ExitFalse.

(** A connected client in front of a world. *)
Definition connected (w : stage) : State stage :=
  mkState w [Session; Transport] one_server (Some "gpt-4o") true [].

(** A state before [main] has run. *)
Definition fresh (w : stage) : State stage :=
  mkState w [] VNone None false [].

Definition mcp_error : exn := Exn (OtherException "McpError") "table not found".

Definition interrupt : exn := Exn KeyboardInterrupt "".

Definition broken_pipe : exn := Exn (OtherException "BrokenPipeError") "[Errno 32] Broken pipe".

(** The catalog and the first replies of the examples. *)
Definition tools_of_calm : list Tool := [list_tables; run_query].

Definition requested_two : Choice :=
  mkChoice "tool_calls" (mkChatCompletionMessage None (Some [call_1; call_2])).

Definition requested_one : Choice :=
  mkChoice "tool_calls" (mkChatCompletionMessage None (Some [call_1])).


(** The states of the examples. *)

(** The model requests two tools, and requests one again after the result. *)
Definition asks_tables : State stage :=
  connected (mkStage [inr (tool_reply [call_1; call_2]);
                      inr (tool_reply [call_2])] []).

Definition said_hello : Choice :=
  mkChoice "stop" (mkChatCompletionMessage (Some "Hello!") None).

(** The model answers in plain text. *)
Definition says_hello : State stage :=
  connected (mkStage [inr (mkChatCompletion [said_hello])] []).


(** The model requests one tool and would answer in text afterwards. *)
Definition asks_once : State stage :=
  connected (mkStage [inr (tool_reply [call_1]);
                      inr (text_reply "The table is missing.")] []).

(** The session raises on the tool call. *)
Definition failing_tool : Script := script (inl mcp_error) ExitFalse ExitFalse.


(** Closing the session raises. *)
Definition failing_close : Script :=
  script (inr tables) (ExitRaise broken_pipe) ExitFalse.

(** The user types [quit] at the first prompt. *)
Definition quits : State stage := fresh (mkStage [] [inr "quit"]).

(** The user interrupts the first prompt. *)
Definition interrupted : State stage := fresh (mkStage [] [inl interrupt]).

(** The same client once constructed, and once the prompt has raised. *)
Definition connected_interrupted : State stage :=
  snd (init (play failing_close) "config.json" interrupted).

Definition torn_interrupted : State stage :=
  snd ((connect_to_server (play failing_close) ;; chat_loop (play failing_close) 1)
         connected_interrupted).

(** A configuration without servers. *)
Definition no_server : State stage :=
  mkState (mkStage [] []) [] (VDict [("mcpServers", VDict [])]) None false [].

End Scenario.

(** ** Relations between the state before and the state after

    [respects R c]: whatever the state, the state [c] leaves is related by
    [R] to the state it started from.  Two relations are used: the fields of
    the client are the same, and the log has grown by events with some
    property. *)

Definition respects (W A : Type) (R : State W -> State W -> Prop) (c : M W A) : Prop :=
  forall st : State W, R st (snd (c st)).

Definition same_client (W : Type) (st st' : State W) : Prop :=
  exit_stack st' = exit_stack st /\ config st' = config st /\
  model st' = model st /\ session st' = session st.

Definition adds (W : Type) (P : list Event -> Prop) (st st' : State W) : Prop :=
  exists new, log st' = (log st ++ new)%list /\ P new.

(** A property of logs that holds of the empty log and of the concatenation
    of two logs that have it. *)
Class Additive (P : list Event -> Prop) : Prop := {
  additive_nil : P [];
  additive_app : forall a b, P a -> P b -> P (a ++ b)%list
}.

Definition every (p : Event -> bool) (evs : list Event) : Prop :=
  forallb p evs = true.

Definition is_input (ev : Event) : bool :=
  match ev with EvInput _ => true | _ => false end.

Definition is_list_tools (ev : Event) : bool :=
  match ev with EvListTools => true | _ => false end.

(** The prompts shown, in order. *)
Definition prompts_of (evs : list Event) : list Event := filter is_input evs.

(** The events of a conversation: prompts, output, and the calls of a
    query.  The others start, stop or configure the client. *)
Definition conversation_event (ev : Event) : bool :=
  match ev with
  | EvInput _ | EvPrint _ | EvListTools | EvCallTool _ _ | EvCreate _ _ _ => true
  | _ => false
  end.

(** The events of connecting: everything but prompts, model calls and tool
    calls. *)
Definition connection_event (ev : Event) : bool :=
  negb (is_input ev) && negb (is_create ev) && negb (is_call_tool ev).

(** A model call, if the event is one, is sent a user turn followed by at
    most two turns. *)
Definition fresh_history (ev : Event) : bool :=
  match ev with
  | EvCreate _ (UserMessage _ :: rest) _ => (length rest <=? 2)%nat
  | EvCreate _ _ _ => false
  | _ => true
  end.

(** Per prompt, at most one listing of the tools, one tool call and two
    model calls. *)
Definition within_budget (evs : list Event) : Prop :=
  length (filter is_list_tools evs) <= length (prompts_of evs) /\
  length (tool_calls_of evs) <= length (prompts_of evs) /\
  length (model_calls_of evs) <= 2 * length (prompts_of evs).

(** The default of [dict.get]. *)
Definition get_or (fields : list (string * value)) (key : string) (default : value) : value :=
  match lookup fields key with
  | Some v => v
  | None => default
  end.

(** The errors the program raises by name. *)
Definition no_key_error : exn :=
  Exn ValueError "❌ 未找到 OpenAI API Key，请在 .env 文件中设置 OPENAI_API_KEY".

Definition no_server_message : string := "❌ 配置文件中未找到 MCP 服务器配置".

Definition selection_prefix : string := "❌ 获取服务器名称和配置失败: ".

(** The events of [connect_to_server] up to the start of the transport, for
    the server named [name], the values found in its entry and the launch
    parameters built from them. *)
Definition announces (name : string) (command args env_ : value)
    (params : StdioServerParameters) : list Event :=
  [EvPrint (OutText ("Connecting to server: " ++ name));
   EvPrint (OutLabelled "Server Command:" command);
   EvPrint (OutLabelled "Server Args:" args);
   EvPrint (OutLabelled "Server Env:" env_);
   EvEnter Transport (Some params)].

(** The server is selected and its launch parameters are built. *)
Definition launches (W : Type) (env : Collaborators W) (st : State W) (name : string) (fields : list (string * value))
    (params : StdioServerParameters) : Prop :=
  (exists items others,
     config st = VDict items /\
     lookup items "mcpServers" = Some (VDict ((name, VDict fields) :: others))) /\
  server_params_new env (get_or fields "command" VNone)
    (get_or fields "args" (VList [])) (get_or fields "env" (VDict []))
    = inr params.

(** ** More concrete collaborators *)

Module Cases.

Import Scenario.



(** The session cannot be entered. *)
Definition handshake_error : exn := Exn (OtherException "McpError") "Connection closed".

Definition no_session : Collaborators stage :=
  {| json_loads := json_loads (play calm);
     read_config := read_config (play calm);
     getenv := getenv (play calm);
     openai_new := openai_new (play calm);
     server_params_new := server_params_new (play calm);
     transport_aenter := transport_aenter (play calm);
     session_aenter := fun w => (inl handshake_error, w);
     aexit := aexit (play calm);
     session_initialize := session_initialize (play calm);
     session_list_tools := session_list_tools (play calm);
     session_call_tool := session_call_tool (play calm);
     completions_create := completions_create (play calm);
     input := input (play calm) |}.

(** No API key in the environment. *)
Definition keyless : Script :=
  mkScript (inr one_server) None (inr [list_tables; run_query]) (inr tables)
    ExitFalse ExitFalse.

(** No configuration file, and a configuration file that is not JSON. *)
Definition no_file : Script :=
  mkScript (inl (Exn FileNotFoundError "[Errno 2] No such file or directory: 'config.json'"))
    (Some "sk-test") (inr []) (inr tables) ExitFalse ExitFalse.

Definition bad_file : Script :=
  mkScript (inl (Exn JSONDecodeError "Expecting value: line 1 column 1 (char 0)"))
    (Some "sk-test") (inr []) (inr tables) ExitFalse ExitFalse.

(** The tool answers with an image. *)
Definition image_result : Script :=
  script (inr (mkCallToolResult [ImageContent "iVBORw0KGgo=" "image/png"] false))
    ExitFalse ExitFalse.

(** A connected client whose user types the given lines. *)
Definition typing (lines : list (result string))
    (replies : list (result ChatCompletion)) : State stage :=
  connected (mkStage replies lines).

(** A client that is constructed and not connected. *)
Definition constructed : State stage :=
  mkState (mkStage [] []) [] one_server (Some "gpt-4o") false [].

(** The model answers with a list of requests that is empty. *)
Definition empty_request : ChatCompletion := tool_reply [].

(** Exits that show in the world: closing the session drops the replies
    that were not read, and stopping the transport drops the lines that
    were not read, but only once the session is closed. *)
Definition closing : Collaborators stage :=
  {| json_loads := json_loads (play calm);
     read_config := read_config (play calm);
     getenv := getenv (play calm);
     openai_new := openai_new (play calm);
     server_params_new := server_params_new (play calm);
     transport_aenter := transport_aenter (play calm);
     session_aenter := session_aenter (play calm);
     aexit := fun c _ w =>
       match c with
       | Session => (ExitFalse, mkStage [] (lines w))
       | Transport =>
           match replies w with
           | [] => (ExitFalse, mkStage [] [])
           | _ :: _ => (ExitFalse, w)
           end
       end;
     session_initialize := session_initialize (play calm);
     session_list_tools := session_list_tools (play calm);
     session_call_tool := session_call_tool (play calm);
     completions_create := completions_create (play calm);
     input := input (play calm) |}.




(** The model ends its reply with [stop] and lists two requests all the
    same. *)
Definition stopped_with_requests : Choice :=
  mkChoice "stop" (mkChatCompletionMessage None (Some [call_1; call_2])).

Definition asks_under_stop : State stage :=
  typing [] [inr (mkChatCompletion [stopped_with_requests]);
             inr (text_reply "unused")].

(** The model ends its reply with [tool_calls] and requests nothing. *)
Definition flagged_without_requests : Choice :=
  mkChoice "tool_calls" (mkChatCompletionMessage (Some "Hello!") None).

Definition flags_only : State stage :=
  typing [] [inr (mkChatCompletion [flagged_without_requests])].

(** U+3000, the ideographic space, and a line that ends with it. *)
Definition ideographic_space : string :=
  String (ascii_of_nat 227) (String (ascii_of_nat 128) (String (ascii_of_nat 128) "")).

Definition wide_quit : string := "Quit" ++ ideographic_space.

(** A client whose first server entry is a string, not an object. *)
Definition odd_entry : State stage :=
  mkState (mkStage [] []) []
    (VDict [("mcpServers", VDict [("broken", VStr "uv run server")])])
    (Some "gpt-4o") false [].

(** The launch parameters of the first server of [one_server]. *)
Definition uv_run : StdioServerParameters :=
  mkStdioServerParameters (VStr "uv") (VList [VStr "run"]) (VDict []).

Definition uv_fields : list (string * value) :=
  [("command", VStr "uv"); ("args", VList [VStr "run"])].

End Cases.

(** * Properties *)

(** ** Reading the log of a run *)

Lemma skipn_length_app (A : Type) (l new : list A) :
  skipn (length l) (l ++ new) = new.
Proof.
  induction l as [|x l IH]; simpl; auto.
Qed.

Lemma events_since_app (W : Type) (st st' : State W) (new : list Event) :
  log st' = (log st ++ new)%list -> events_since st st' = new.
Proof.
  unfold events_since. intros ->. apply skipn_length_app.
Qed.

Lemma events_since_same (W : Type) (st st' : State W) :
  log st' = log st -> events_since st st' = [].
Proof.
  intros H. apply events_since_app. rewrite H, app_nil_r. reflexivity.
Qed.

(** Unfolding of the monad, and the log of the state reached. *)
Ltac unfold_monad :=
  unfold session_attr, subscript0, index0, text_of, print, call, lift, gets,
    modify, bind, ret, raise, pending, record, set_world, set_session,
    set_exit_stack, set_config, set_model in *.

Section ProcessQuery.

Variable W : Type.
Variable env : Collaborators W.

Lemma hd_error_cons (A : Type) (l : list A) (x : A) :
  hd_error l = Some x -> exists rest, l = x :: rest.
Proof.
  destruct l; simpl; intros H; inversion H; eauto.
Qed.

(** Up to the first reply, a query does the same on every path. *)
Lemma process_query_first_reply query st tools content w :
  first_reply env query st tools content w ->
  process_query env query st =
    (let st2 := mkState w (exit_stack st) (config st) (model st) (session st)
                  (log st ++ [EvListTools; first_request query st tools]) in
     if String.eqb (finish_reason content) "tool_calls" then
       (tool_call <- subscript0 (msg_tool_calls (message content)) ;;
        let tool_name := fn_name (tc_function tool_call) in
        tool_args <- lift (json_loads env (fn_arguments (tc_function tool_call))) ;;
        session_attr "call_tool" ;;
        result <- call (EvCallTool tool_name tool_args)
                    (session_call_tool env tool_name tool_args) ;;
        print (OutCallingTool tool_name tool_args) ;;
        block <- index0 (result_content result) ;;
        text <- text_of block ;;
        let messages := tool_history query content text tool_call in
        self_model <- gets (@model W) ;;
        response <- call (EvCreate self_model messages None)
                      (completions_create env self_model messages None) ;;
        final <- index0 (choices response) ;;
        ret (msg_content (message final))) st2
     else (Returned (msg_content (message content)), st2)).
Proof.
  intros (Hs & w1 & response & Hl & Hc & Hh).
  apply hd_error_cons in Hh. destruct Hh as (rest & Hh).
  destruct st as [w0 stack cfg mdl ses lg]. simpl in *. subst ses.
  unfold process_query. unfold_monad. simpl.
  rewrite Hl. simpl. rewrite Hc. rewrite Hh. simpl.
  rewrite <- app_assoc. simpl.
  destruct (String.eqb (finish_reason content) "tool_calls"); reflexivity.
Qed.

(** Every path of a query, one case per collaborator's answer. *)
Ltac explore_paths :=
  repeat match goal with
         | |- context [match ?x with _ => _ end] =>
             lazymatch x with
             | context [match _ with _ => _ end] => fail
             | _ => destruct x eqn:?; simpl
             end
         end.

(** C3: a first reply that requests no tool is the answer.  The reply's
    text is returned as it is, after one model call and no tool call. *)
Theorem process_query_plain_answer query st tools content w :
  first_reply env query st tools content w ->
  finish_reason content <> "tool_calls" ->
  exists st',
    process_query env query st = (Returned (msg_content (message content)), st') /\
    events_since st st' = [EvListTools; first_request query st tools] /\
    length (model_calls_of (events_since st st')) = 1 /\
    tool_calls_of (events_since st st') = [] /\
    world st' = w.
Proof.
  intros Hpath Hplain.
  rewrite (process_query_first_reply Hpath).
  apply String.eqb_neq in Hplain. rewrite Hplain. simpl.
  eexists. split; [reflexivity|].
  assert (Hlog : events_since st
                   (mkState w (exit_stack st) (config st) (model st) (session st)
                      (log st ++ [EvListTools; first_request query st tools]))
                 = [EvListTools; first_request query st tools])
    by (apply events_since_app; reflexivity).
  rewrite Hlog. repeat split.
Qed.

(** The tool-calling path up to the answer of the session: the first
    request of the reply is decoded and sent, and nothing else. *)
Lemma process_query_tool_call query st tools content w tool_call more args :
  first_reply env query st tools content w ->
  finish_reason content = "tool_calls" ->
  msg_tool_calls (message content) = Some (tool_call :: more) ->
  json_loads env (fn_arguments (tc_function tool_call)) = inr args ->
  let name := fn_name (tc_function tool_call) in
  let called w' extra :=
    mkState w' (exit_stack st) (config st) (model st) (session st)
      (log st ++ [EvListTools; first_request query st tools;
                  EvCallTool name args] ++ extra) in
  process_query env query st =
    match session_call_tool env name args w with
    | (inl e, w3) => (Raised e, called w3 [])
    | (inr result, w3) =>
        (block <- index0 (result_content result) ;;
         text <- text_of block ;;
         let messages := tool_history query content text tool_call in
         self_model <- gets (@model W) ;;
         response <- call (EvCreate self_model messages None)
                       (completions_create env self_model messages None) ;;
         final <- index0 (choices response) ;;
         ret (msg_content (message final)))
          (called w3 [EvPrint (OutCallingTool name args)])
    end.
Proof.
  intros Hpath Hreason Hcalls Hargs name called. subst name called.
  rewrite (process_query_first_reply Hpath).
  rewrite Hreason. simpl.
  destruct Hpath as (Hs & _).
  destruct st as [w0 stack cfg mdl ses lg]. simpl in *. subst ses.
  unfold_monad. rewrite Hcalls. simpl. rewrite Hargs. simpl.
  destruct (session_call_tool env _ args w) as [[e|result] w3]; simpl;
    rewrite <- ?app_assoc; reflexivity.
Qed.

(** The events of a leaf of [explore_paths]. *)
Ltac leaf_events :=
  unfold events_since; simpl;
  rewrite <- ?app_assoc; rewrite ?skipn_length_app, ?skipn_all; simpl.

(** On every path a query makes at most one tool call and at most two
    model calls. *)
Lemma process_query_calls_bounded query st :
  let evs := events_since st (snd (process_query env query st)) in
  length (tool_calls_of evs) <= 1 /\ length (model_calls_of evs) <= 2.
Proof.
  destruct st as [w0 stack cfg mdl ses lg].
  unfold process_query. unfold_monad. simpl.
  explore_paths; leaf_events; split; lia.
Qed.

(** C1, as the code has it: a query performs at most one tool round-trip,
    and whether it performs one is decided by the finish reason of the
    first reply.  On every path the log of the query holds at most one tool
    call and at most two model calls.  When the finish reason of the first
    reply is [tool_calls] and the arguments of its first request decode,
    the one call sent to the session is that first request, with its name
    and its decoded arguments, whatever other requests the reply lists; and
    once the session has returned a result that starts with text, the model
    is called a second and last time and the text of that reply is
    returned, whether or not that reply requests tools again.  When the
    finish reason is anything else, no tool is called and the model is
    not called again, whatever requests the reply lists. *)
Theorem process_query_single_round_trip query st :
  let evs := events_since st (snd (process_query env query st)) in
  (length (tool_calls_of evs) <= 1 /\ length (model_calls_of evs) <= 2) /\
  (forall tools content w tool_call more args,
    first_reply env query st tools content w ->
    finish_reason content = "tool_calls" ->
    msg_tool_calls (message content) = Some (tool_call :: more) ->
    json_loads env (fn_arguments (tc_function tool_call)) = inr args ->
    let name := fn_name (tc_function tool_call) in
    tool_calls_of evs = [EvCallTool name args] /\
    forall result w3 text blocks response w4 final others,
      session_call_tool env name args w = (inr result, w3) ->
      result_content result = TextContent text :: blocks ->
      completions_create env (model st)
        (tool_history query content text tool_call) None w3
        = (inr response, w4) ->
      choices response = final :: others ->
      fst (process_query env query st) = Returned (msg_content (message final)) /\
      evs = [EvListTools; first_request query st tools;
             EvCallTool name args; EvPrint (OutCallingTool name args);
             EvCreate (model st) (tool_history query content text tool_call) None]) /\
  (forall tools content w,
    first_reply env query st tools content w ->
    finish_reason content <> "tool_calls" ->
    tool_calls_of evs = [] /\
    model_calls_of evs = [first_request query st tools] /\
    fst (process_query env query st) = Returned (msg_content (message content))).
Proof.
  intros evs. split; [apply process_query_calls_bounded|]. split.
  - intros tools content w tool_call more args Hpath Hreason Hcalls Hargs name.
    subst evs.
    rewrite (process_query_tool_call Hpath Hreason Hcalls Hargs). fold name.
    split.
    + destruct st as [w0 stack cfg mdl ses lg]. simpl.
      unfold_monad. simpl. explore_paths; leaf_events; reflexivity.
    + intros result w3 text blocks response w4 final others
        Hcall Hcontent Hcreate Hchoices.
      rewrite Hcall.
      destruct st as [w0 stack cfg mdl ses lg]. simpl in *.
      unfold_monad. simpl. rewrite Hcontent. simpl.
      rewrite Hcreate, Hchoices. simpl.
      split; [reflexivity|]. leaf_events. reflexivity.
  - intros tools content w Hpath Hplain. subst evs.
    rewrite (process_query_first_reply Hpath).
    apply String.eqb_neq in Hplain. rewrite Hplain.
    destruct st as [w0 stack cfg mdl ses lg]. leaf_events. repeat split.
Qed.

(** Once the session has returned a result that starts with a text block,
    the model is called a second time, with the text of that block in the
    tool-result turn. *)
Lemma process_query_forwards_text
    query st tools content w tool_call more args result w3 text blocks :
  first_reply env query st tools content w ->
  finish_reason content = "tool_calls" ->
  msg_tool_calls (message content) = Some (tool_call :: more) ->
  json_loads env (fn_arguments (tc_function tool_call)) = inr args ->
  session_call_tool env (fn_name (tc_function tool_call)) args w
    = (inr result, w3) ->
  result_content result = TextContent text :: blocks ->
  model_calls_of (events_since st (snd (process_query env query st))) =
    [first_request query st tools;
     EvCreate (model st) (tool_history query content text tool_call) None].
Proof.
  intros Hpath Hreason Hcalls Hargs Hcall Hcontent.
  rewrite (process_query_tool_call Hpath Hreason Hcalls Hargs), Hcall.
  destruct st as [w0 stack cfg mdl ses lg].
  unfold_monad. rewrite Hcontent. simpl.
  explore_paths; leaf_events; reflexivity.
Qed.

(** C2, as the code has it: a tool call that raises ends the query.
    Whatever the session raises leaves [process_query] as it is, the
    history gets no tool-result turn and the model is not called again.
    A failure that the session reports in a result it returns is not
    told apart from a success: the text of the first block is the
    tool-result turn of the second model call, whatever the error flag of
    the result. *)
Theorem process_query_tool_failure_propagates
    query st tools content w tool_call more args :
  first_reply env query st tools content w ->
  finish_reason content = "tool_calls" ->
  msg_tool_calls (message content) = Some (tool_call :: more) ->
  json_loads env (fn_arguments (tc_function tool_call)) = inr args ->
  let name := fn_name (tc_function tool_call) in
  (forall e w3,
     session_call_tool env name args w = (inl e, w3) ->
     exists st',
       process_query env query st = (Raised e, st') /\
       events_since st st' =
         [EvListTools; first_request query st tools; EvCallTool name args] /\
       model_calls_of (events_since st st') = [first_request query st tools] /\
       world st' = w3) /\
  (forall blocks flag w3 text,
     session_call_tool env name args w
       = (inr (mkCallToolResult (TextContent text :: blocks) flag), w3) ->
     model_calls_of (events_since st (snd (process_query env query st))) =
       [first_request query st tools;
        EvCreate (model st) (tool_history query content text tool_call) None]).
Proof.
  intros Hpath Hreason Hcalls Hargs name. subst name. split.
  - intros e w3 Hcall.
    rewrite (process_query_tool_call Hpath Hreason Hcalls Hargs), Hcall.
    eexists. split; [reflexivity|].
    rewrite app_nil_r.
    match goal with
    | |- events_since ?a ?b = ?l /\ _ =>
        assert (Hlog : events_since a b = l) by (apply events_since_app; reflexivity)
    end.
    rewrite Hlog. repeat split.
  - intros blocks flag w3 text Hcall.
    exact (process_query_forwards_text Hpath Hreason Hcalls Hargs Hcall eq_refl).
Qed.

(** C4: every history sent to the model satisfies the invariant of a
    conversation, and it is either the user turn alone or the user turn,
    the model turn that requests tools and the tool-result turn that
    names the token of the first request of that model turn.  On the
    tool-calling path the second model call receives exactly these three
    turns: the query, the first reply as the model gave it, and the text
    of the result under the token of the request that was executed. *)
Theorem process_query_history_invariant query st :
  let evs := events_since st (snd (process_query env query st)) in
  (forall m messages catalog,
     In (EvCreate m messages catalog) evs ->
     history_ok messages = true /\
     (messages = [UserMessage query] \/
      exists turn tool_call more text,
        msg_tool_calls turn = Some (tool_call :: more) /\
        messages = [UserMessage query; ModelMessage turn;
                    ToolMessage text (tc_id tool_call)])) /\
  (forall tools content w tool_call more args result w3 text blocks,
     first_reply env query st tools content w ->
     finish_reason content = "tool_calls" ->
     msg_tool_calls (message content) = Some (tool_call :: more) ->
     json_loads env (fn_arguments (tc_function tool_call)) = inr args ->
     session_call_tool env (fn_name (tc_function tool_call)) args w
       = (inr result, w3) ->
     result_content result = TextContent text :: blocks ->
     model_calls_of evs =
       [first_request query st tools;
        EvCreate (model st)
          [UserMessage query; ModelMessage (message content);
           ToolMessage text (tc_id tool_call)] None]).
Proof.
  intros evs. subst evs. split.
  - destruct st as [w0 stack cfg mdl ses lg].
    unfold process_query. unfold_monad. simpl.
    explore_paths; leaf_events; intros m messages catalog Hin;
      repeat (destruct Hin as [Hin|Hin]; [try discriminate Hin|]);
      try contradiction;
      inversion Hin; subst; clear Hin.
    all: split; [|solve [left; reflexivity | right; eauto 6]].
    all: try reflexivity.
    all: unfold history_ok; simpl; unfold requests;
      match goal with H : msg_tool_calls _ = Some _ |- _ => rewrite H end;
      simpl; rewrite String.eqb_refl; reflexivity.
  - intros tools content w tool_call more args result w3 text blocks
      Hpath Hreason Hcalls Hargs Hcall Hcontent.
    exact (process_query_forwards_text Hpath Hreason Hcalls Hargs Hcall Hcontent).
Qed.




End ProcessQuery.

(** ** The exit stack along a run *)

Lemma pushed_app (a b : list Event) : pushed (a ++ b) = (pushed a ++ pushed b)%list.
Proof.
  induction a as [|ev a IH]; simpl; auto.
  destruct ev; simpl; rewrite ?IH; reflexivity.
Qed.

Lemma exited_app (a b : list Event) : exited (a ++ b) = (exited a ++ exited b)%list.
Proof.
  induction a as [|ev a IH]; simpl; auto.
  destruct ev; simpl; rewrite ?IH; reflexivity.
Qed.

Lemma prefix_of_nil (A : Type) (l : list A) : prefix_of l [] -> l = [].
Proof.
  intros (rest & H). symmetry in H. apply app_eq_nil in H. tauto.
Qed.

Lemma prefix_of_refl (A : Type) (l : list A) : prefix_of l l.
Proof.
  exists []. rewrite app_nil_r. reflexivity.
Qed.

Lemma prefix_of_app (A : Type) (l whole more : list A) :
  prefix_of l whole -> prefix_of l (whole ++ more).
Proof.
  intros (rest & ->). exists (rest ++ more)%list. rewrite app_assoc. reflexivity.
Qed.

Lemma prefix_of_app_same (A : Type) (l a b : list A) :
  prefix_of a b -> prefix_of (l ++ a) (l ++ b).
Proof.
  intros (rest & ->). exists rest. rewrite app_assoc. reflexivity.
Qed.

Section Steps.

Variable W : Type.

(** A computation that adds nothing to the log and leaves the stack. *)
Lemma steps_silent (A : Type) (c : M W A) :
  (forall st, log (snd (c st)) = log st /\
              exit_stack (snd (c st)) = exit_stack st) ->
  steps [] c.
Proof.
  intros H st. destruct (H st) as (Hl & Hs). exists []. simpl.
  rewrite app_nil_r. repeat split; auto.
  destruct (fst (c st)); auto using prefix_of_refl.
Qed.

Lemma steps_ret (A : Type) (a : A) : steps [] (@ret W A a).
Proof. apply steps_silent. intros st. split; reflexivity. Qed.

Lemma steps_raise (A : Type) (e : exn) : steps [] (@raise W A e).
Proof. apply steps_silent. intros st. split; reflexivity. Qed.

Lemma steps_pending (A : Type) : steps [] (@pending W A).
Proof. apply steps_silent. intros st. split; reflexivity. Qed.

Lemma steps_gets (A : Type) (f : State W -> A) : steps [] (gets f).
Proof. apply steps_silent. intros st. split; reflexivity. Qed.

Lemma steps_lift (A : Type) (r : result A) : steps [] (@lift W A r).
Proof. destruct r; [apply steps_raise | apply steps_ret]. Qed.

Lemma steps_modify (f : State W -> State W) :
  (forall st, log (f st) = log st /\ exit_stack (f st) = exit_stack st) ->
  steps [] (modify f).
Proof. intros H. apply steps_silent. exact H. Qed.

Lemma steps_index0 (A : Type) (l : list A) : steps [] (@index0 W A l).
Proof. destruct l; [apply steps_raise | apply steps_ret]. Qed.

Lemma steps_subscript0 (A : Type) (o : option (list A)) :
  steps [] (@subscript0 W A o).
Proof. destruct o; [apply steps_index0 | apply steps_raise]. Qed.

Lemma steps_text_of (b : ContentBlock) : steps [] (@text_of W b).
Proof. destruct b; [apply steps_ret | apply steps_raise | apply steps_raise]. Qed.

Lemma steps_value_get (v : value) (key : string) (default : value) :
  steps [] (@value_get W v key default).
Proof.
  destruct v; simpl; try apply steps_raise.
  destruct (lookup items key); apply steps_ret.
Qed.

Lemma steps_value_getitem (v : value) (key : string) :
  steps [] (@value_getitem W v key).
Proof.
  destruct v; simpl; try apply steps_raise.
  destruct (lookup items key); [apply steps_ret | apply steps_raise].
Qed.

Lemma steps_first_item (v : value) : steps [] (@first_item W v).
Proof.
  destruct v; simpl; try apply steps_raise.
  destruct items; [apply steps_raise | apply steps_ret].
Qed.

Lemma plain_event (ev : Event) :
  plain ev = true -> pushed [ev] = [] /\ exited [ev] = [].
Proof. destruct ev; simpl; intros H; try discriminate H; auto. Qed.

Lemma steps_print (o : Output) : steps [] (@print W o).
Proof.
  intros st. exists [EvPrint o]. simpl. repeat split.
Qed.

Lemma steps_call (A : Type) (ev : Event) (f : W -> result A * W) :
  plain ev = true -> steps [] (call ev f).
Proof.
  intros Hev st. destruct (plain_event ev Hev) as (Hp & He).
  exists [ev]. unfold call.
  change (world (record ev st)) with (world st).
  destruct (f (world st)) as [[e|a] w];
    cbn [fst snd log exit_stack record set_world]; rewrite Hp, He;
    repeat split; auto using prefix_of_refl.
Qed.

Lemma steps_bind (A B : Type) (ps1 ps2 : list ContextManager)
    (c : M W A) (k : A -> M W B) :
  steps ps1 c -> (forall a, steps ps2 (k a)) -> steps (ps1 ++ ps2) (bind c k).
Proof.
  intros Hc Hk st. unfold bind.
  destruct (Hc st) as (n1 & Hl1 & He1 & Hs1 & Hp1).
  destruct (c st) as [[a|e|] st1]; simpl in *.
  - destruct (Hk a st1) as (n2 & Hl2 & He2 & Hs2 & Hp2).
    exists (n1 ++ n2)%list.
    rewrite Hl2, Hl1, Hs2, Hs1, exited_app, pushed_app, He1, He2, rev_app_distr.
    rewrite <- !app_assoc. repeat split.
    destruct (fst (k a st1)); rewrite Hp1;
      [congruence | apply prefix_of_app_same; assumption
                  | apply prefix_of_app_same; assumption].
  - exists n1. repeat split; auto using prefix_of_app.
  - exists n1. repeat split; auto using prefix_of_app.
Qed.

Lemma quiet_bind (A B : Type) (c : M W A) (k : A -> M W B) :
  steps [] c -> (forall a, steps [] (k a)) -> steps [] (bind c k).
Proof. intros Hc Hk. exact (@steps_bind A B [] [] c k Hc Hk). Qed.

Lemma quiet_try_except (A : Type) (body : M W A) (handler : exn -> M W A) :
  steps [] body -> (forall e, steps [] (handler e)) ->
  steps [] (try_except_Exception body handler).
Proof.
  intros Hb Hh st. unfold try_except_Exception.
  destruct (Hb st) as (n1 & Hl1 & He1 & Hs1 & Hp1).
  destruct (body st) as [[a|e|] st1]; simpl in *;
    try (exists n1; repeat split; assumption).
  destruct (is_Exception e); [|exists n1; repeat split; assumption].
  apply prefix_of_nil in Hp1.
  destruct (Hh e st1) as (n2 & Hl2 & He2 & Hs2 & Hp2).
  exists (n1 ++ n2)%list.
  rewrite Hl2, Hl1, Hs2, Hs1, exited_app, pushed_app, He1, He2, Hp1.
  rewrite <- !app_assoc. simpl. repeat split.
  destruct (fst (handler e st1)); assumption.
Qed.

End Steps.

Create HintDb quiet.

#[export] Hint Resolve steps_ret steps_raise steps_pending steps_gets steps_lift
  steps_index0 steps_subscript0 steps_text_of steps_value_get
  steps_value_getitem steps_first_item steps_print : quiet.

(** Computations built from the quiet ones by sequencing, branching and
    [try ... except] are quiet. *)
Ltac quiet :=
  repeat first
    [ progress intros
    | progress cbv zeta
    | apply quiet_bind
    | apply quiet_try_except
    | apply steps_call; reflexivity
    | apply steps_modify; intros ?; split; reflexivity
    | solve [auto with quiet]
    | match goal with
      | |- steps [] (if ?b then _ else _) => destruct b
      | |- steps [] (match ?x with _ => _ end) => destruct x
      end ].

Section Lifecycle.

Variable W : Type.
Variable env : Collaborators W.

Lemma steps_session_attr (attr : string) : steps [] (@session_attr W attr).
Proof. unfold session_attr. quiet. Qed.

Hint Resolve steps_session_attr : quiet.

(** A query neither registers nor exits a context manager. *)
Lemma steps_process_query (query : string) : steps [] (process_query env query).
Proof. unfold process_query. quiet. Qed.

Hint Resolve steps_process_query : quiet.

Lemma steps_chat_loop_body : steps [] (chat_loop_body env).
Proof. unfold chat_loop_body. quiet. Qed.

Lemma steps_chat_loop_while (fuel : nat) : steps [] (chat_loop_while env fuel).
Proof.
  induction fuel as [|fuel IH]; simpl.
  - apply steps_pending.
  - apply quiet_bind; [apply steps_chat_loop_body|].
    intros [|]; [apply steps_ret | exact IH].
Qed.

Hint Resolve steps_chat_loop_while : quiet.


Lemma steps_get_server_name_and_config :
  steps [] (@get_server_name_and_config W).
Proof. unfold get_server_name_and_config. quiet. Qed.

Hint Resolve steps_get_server_name_and_config : quiet.

(** Entering a context manager registers it when [__aenter__] returns,
    and registers nothing when it raises. *)
Lemma steps_enter_async_context c params (aenter : W -> result unit * W) :
  steps [c] (enter_async_context c params aenter).
Proof.
  intros st. unfold enter_async_context, bind, call, modify.
  change (world (record (EvEnter c params) st)) with (world st).
  destruct (aenter (world st)) as [[e|[]] w]; simpl.
  - exists [EvEnter c params]. simpl. repeat split. exists [c]. reflexivity.
  - exists [EvEnter c params; EvPushExit c]. simpl.
    rewrite <- app_assoc. repeat split.
Qed.

(** Connecting registers the transport and then the session. *)
Lemma steps_connect_to_server :
  steps [Transport; Session] (connect_to_server env).
Proof.
  unfold connect_to_server.
  apply (@steps_bind W _ _ [] [Transport; Session]); [quiet|].
  intros [server_name server_config].
  repeat (lazymatch goal with
          | |- steps _ (bind (enter_async_context _ _ _) _) => fail
          | _ => idtac
          end;
          apply (@steps_bind W _ _ [] [Transport; Session]); [quiet|]; intros).
  apply (@steps_bind W _ _ [Transport] [Session]);
    [apply steps_enter_async_context|]; intros.
  apply (@steps_bind W _ _ [Session] []);
    [apply steps_enter_async_context|]; intros.
  quiet.
Qed.

(** What a quiet computation leaves behind. *)
Lemma quiet_run (A : Type) (c : M W A) (st : State W) :
  steps [] c ->
  exists new,
    log (snd (c st)) = (log st ++ new)%list /\
    exited new = [] /\ pushed new = [] /\
    exit_stack (snd (c st)) = exit_stack st.
Proof.
  intros Hc. destruct (Hc st) as (new & Hl & He & Hs & Hp).
  assert (Hnil : pushed new = [])
    by (destruct (fst (c st)); auto using prefix_of_nil).
  exists new. rewrite Hnil in Hs. auto.
Qed.

Lemma steps_load_config (config_path : string) :
  steps [] (load_config env config_path).
Proof.
  intros st. unfold load_config.
  assert (Hcall : steps [] (call (EvReadConfig config_path)
                              (read_config env config_path)))
    by (apply steps_call; reflexivity).
  destruct (Hcall st) as (new & Hl & He & Hs & Hp).
  exists new.
  destruct (call (EvReadConfig config_path) (read_config env config_path) st)
    as [[a|e|] st1]; simpl in *; auto.
  destruct (exn_cls e); simpl; auto.
Qed.

Hint Resolve steps_load_config : quiet.

(** The constructor starts from an empty exit stack. *)
Lemma init_run (config_path : string) (st : State W) :
  exists new,
    log (snd (init env config_path st)) = (log st ++ new)%list /\
    exited new = [] /\ pushed new = [] /\
    exit_stack (snd (init env config_path st)) = [].
Proof.
  unfold init.
  match goal with
  | |- context [bind (modify ?f) ?k] =>
      assert (Hk : steps [] (k tt)) by quiet;
      change (bind (modify f) k st) with (k tt (f st));
      destruct (quiet_run (f st) Hk) as (new & Hl & He & Hp & Hs)
  end.
  exists new. auto.
Qed.

(** The exit callbacks are all called, top of the stack first, and the
    stack is empty afterwards, whatever the callbacks do. *)
Lemma exit_callbacks_run (callbacks : list ContextManager) :
  forall (exc : option exn) (st : State W),
    exit_stack st = callbacks ->
    exists new,
      log (snd (exit_callbacks env callbacks exc st)) = (log st ++ new)%list /\
      exited new = callbacks /\ pushed new = [] /\
      forallb is_exit new = true /\
      exit_stack (snd (exit_callbacks env callbacks exc st)) = [].
Proof.
  induction callbacks as [|cb rest IH]; intros exc st Hstack; simpl.
  - exists []. rewrite app_nil_r. auto.
  - change (world (record (EvExit cb exc) (set_exit_stack rest st)))
      with (world st).
    destruct (aexit env cb exc (world st)) as [r w].
    set (st2 := set_world w (record (EvExit cb exc) (set_exit_stack rest st))).
    assert (Hst2 : exit_stack st2 = rest) by reflexivity.
    assert (Hlog2 : log st2 = (log st ++ [EvExit cb exc])%list) by reflexivity.
    assert (Hall : forall exc',
               exists new,
                 log (snd (exit_callbacks env rest exc' st2))
                   = (log st ++ new)%list /\
                 exited new = cb :: rest /\ pushed new = [] /\
                 forallb is_exit new = true /\
                 exit_stack (snd (exit_callbacks env rest exc' st2)) = []).
    { intros exc'.
      destruct (IH exc' st2 Hst2) as (new & Hl & He & Hp & Hf & Hs).
      exists (EvExit cb exc :: new). rewrite Hl, Hlog2, <- app_assoc. simpl.
      rewrite He, Hp, Hf. auto. }
    destruct r; apply Hall.
Qed.

Lemma cleanup_run (st : State W) :
  exists new,
    log (snd (cleanup env st)) = (log st ++ new)%list /\
    exited new = exit_stack st /\ pushed new = [] /\
    forallb is_exit new = true /\
    exit_stack (snd (cleanup env st)) = [] /\
    fst (cleanup env st) <> Pending.
Proof.
  unfold cleanup, aclose.
  destruct (exit_callbacks_run None st eq_refl) as (new & Hl & He & Hp & Hf & Hs).
  exists new.
  destruct (exit_callbacks env (exit_stack st) None st) as [[e|] st'];
    simpl in *; repeat split; auto; discriminate.
Qed.

(** C8: tearing down twice.  After [cleanup] has run, in whatever state
    and whatever it raised, a second [cleanup] calls no collaborator,
    changes nothing and returns. *)
Theorem cleanup_idempotent (st : State W) :
  let st1 := snd (cleanup env st) in
  cleanup env st1 = (Returned tt, st1).
Proof.
  intros st1.
  destruct (cleanup_run st) as (new & _ & _ & _ & _ & Hs & _).
  fold st1 in Hs. unfold cleanup, aclose. rewrite Hs. reflexivity.
Qed.



Lemma main_after_init (fuel : nat) (st : State W) :
  main env fuel st =
    match init env "config.json" st with
    | (Returned _, st1) =>
        try_finally (connect_to_server env ;; chat_loop env fuel)
          (cleanup env) st1
    | (Raised e, st1) => (Raised e, st1)
    | (Pending, st1) => (Pending, st1)
    end.
Proof. reflexivity. Qed.

(** The exit loop does to the world and to the log what [unwind] says,
    and leaves an empty stack. *)
Lemma exit_callbacks_unwinds (callbacks : list ContextManager) :
  forall (exc : option exn) (st : State W),
    exit_callbacks env callbacks exc st =
      (fst (fst (unwind env callbacks exc (world st))),
       mkState (snd (fst (unwind env callbacks exc (world st))))
         (match callbacks with [] => exit_stack st | _ :: _ => [] end)
         (config st) (model st) (session st)
         (log st ++ snd (unwind env callbacks exc (world st)))).
Proof.
  induction callbacks as [|cb rest IH]; intros exc st.
  - simpl. rewrite app_nil_r. destruct st; reflexivity.
  - simpl.
    change (world (record (EvExit cb exc) (set_exit_stack rest st)))
      with (world st).
    destruct (aexit env cb exc (world st)) as [r w].
    assert (Hstep : forall exc',
               exit_callbacks env rest exc'
                 (set_world w (record (EvExit cb exc) (set_exit_stack rest st)))
               = (fst (fst (unwind env rest exc' w)),
                  mkState (snd (fst (unwind env rest exc' w))) []
                    (config st) (model st) (session st)
                    (log st ++ EvExit cb exc :: snd (unwind env rest exc' w)))).
    { intros exc'. rewrite IH. simpl. rewrite <- app_assoc. simpl.
      destruct rest; reflexivity. }
    destruct r; simpl; rewrite Hstep;
      match goal with
      | |- context [unwind env rest ?x w] =>
          destruct (unwind env rest x w) as [[final w''] exits]
      end; reflexivity.
Qed.

Lemma cleanup_unwinds (st : State W) :
  cleanup env st =
    (outcome_of (fst (fst (unwind env (exit_stack st) None (world st)))),
     mkState (snd (fst (unwind env (exit_stack st) None (world st)))) []
       (config st) (model st) (session st)
       (log st ++ snd (unwind env (exit_stack st) None (world st)))).
Proof.
  unfold cleanup, aclose. rewrite exit_callbacks_unwinds.
  destruct (unwind env (exit_stack st) None (world st)) as [[[e|] w] exits];
    simpl; destruct (exit_stack st); reflexivity.
Qed.




(** C7, as the code has it: [finally] swallows nothing.  When the body of
    [main] raises, the exception that leaves [main] is the one raised by
    the teardown if the teardown raises, and the one of the body only if
    the teardown returns. *)
Theorem main_teardown_error_wins (fuel : nat) (st st1 st2 : State W) (primary : exn) :
  init env "config.json" st = (Returned tt, st1) ->
  (connect_to_server env ;; chat_loop env fuel) st1 = (Raised primary, st2) ->
  (forall secondary st3,
     cleanup env st2 = (Raised secondary, st3) ->
     main env fuel st = (Raised secondary, st3)) /\
  (forall st3,
     cleanup env st2 = (Returned tt, st3) ->
     main env fuel st = (Raised primary, st3)).
Proof.
  intros Hinit Hbody.
  split; [intros secondary st3 Hclean | intros st3 Hclean];
    rewrite main_after_init, Hinit;
    unfold try_finally; rewrite Hbody, Hclean; reflexivity.
Qed.

(** C10: the server is the first entry of [mcpServers]; without an entry
    nothing is connected.  When the mapping has entries, the name and the
    configuration of the first one are returned, whatever the others are.
    When the mapping is absent or empty, a [ValueError] is raised, by
    [connect_to_server] too, which then has called no collaborator and
    entered no context manager: the state is the one it started from.
    In no case does the selection raise anything but a [ValueError] or
    change the state. *)
Theorem get_server_name_and_config_first_entry (st : State W) :
  (forall items name server others,
     config st = VDict items ->
     lookup items "mcpServers" = Some (VDict ((name, server) :: others)) ->
     get_server_name_and_config st = (Returned (name, server), st)) /\
  (forall items,
     config st = VDict items ->
     lookup items "mcpServers" = None \/
     lookup items "mcpServers" = Some (VDict []) ->
     exists message,
       get_server_name_and_config st = (Raised (Exn ValueError message), st) /\
       connect_to_server env st = (Raised (Exn ValueError message), st)) /\
  snd (get_server_name_and_config st) = st /\
  ((exists entry, fst (get_server_name_and_config st) = Returned entry) \/
   (exists message,
      fst (get_server_name_and_config st) = Raised (Exn ValueError message))).
Proof.
  split; [|split; [|split]].
  - intros items name server others Hcfg Hlookup.
    unfold get_server_name_and_config, try_except_Exception, connect_to_server.
    unfold_monad. rewrite Hcfg. simpl. rewrite Hlookup. simpl.
    rewrite ?Hlookup. reflexivity.
  - intros items Hcfg Hlookup. eexists.
    unfold connect_to_server, get_server_name_and_config, try_except_Exception.
    unfold_monad. rewrite Hcfg. simpl.
    destruct Hlookup as [Hlookup|Hlookup]; rewrite Hlookup; simpl;
      split; reflexivity.
  - unfold get_server_name_and_config, try_except_Exception. unfold_monad.
    destruct (config st) as [| | | | | |items]; simpl; try reflexivity.
    destruct (lookup items "mcpServers") as [v|] eqn:Hlookup; simpl;
      [|reflexivity].
    destruct (truthy v); simpl; [|reflexivity].
    rewrite ?Hlookup.
    destruct v as [| | | | | |[|[n c] entries]]; reflexivity.
  - unfold get_server_name_and_config, try_except_Exception. unfold_monad.
    destruct (config st) as [| | | | | |items]; simpl; eauto.
    destruct (lookup items "mcpServers") as [v|] eqn:Hlookup; simpl; eauto.
    destruct (truthy v); simpl; eauto.
    rewrite ?Hlookup.
    destruct v as [| | | | | |[|[n c] entries]]; simpl; eauto.
Qed.

End Lifecycle.


(** ** Runs that end

    A run that has ended with some number of passes of the loop ends the
    same way with more. *)

Section Fuel.

Variable W : Type.
Variable env : Collaborators W.

Lemma chat_loop_while_more_fuel (fuel : nat) :
  forall st : State W,
    fst (chat_loop_while env fuel st) <> Pending ->
    chat_loop_while env (S fuel) st = chat_loop_while env fuel st.
Proof.
  induction fuel as [|fuel IH]; intros st Hends.
  - simpl in Hends. congruence.
  - change (chat_loop_while env (S (S fuel)) st)
      with (bind (chat_loop_body env)
              (fun control => match control with
                              | Break => ret tt
                              | Continue => chat_loop_while env (S fuel)
                              end) st).
    change (chat_loop_while env (S fuel) st)
      with (bind (chat_loop_body env)
              (fun control => match control with
                              | Break => ret tt
                              | Continue => chat_loop_while env fuel
                              end) st) in Hends |- *.
    unfold bind in *.
    destruct (chat_loop_body env st) as [[[|]|e|] st1]; try reflexivity.
    apply IH. exact Hends.
Qed.

Lemma chat_loop_more_fuel (fuel : nat) (st : State W) :
  fst (chat_loop env fuel st) <> Pending ->
  chat_loop env (S fuel) st = chat_loop env fuel st.
Proof.
  assert (Hloop : forall n,
             chat_loop env n st =
             chat_loop_while env n
               (record (EvPrint (OutText "Type your queries or 'quit' to exit."))
                  (record (EvPrint (OutText (nl ++ "MCP Client Started!"))) st)))
    by reflexivity.
  rewrite !Hloop. apply chat_loop_while_more_fuel.
Qed.

Lemma main_more_fuel (fuel : nat) (st : State W) :
  fst (main env fuel st) <> Pending ->
  main env (S fuel) st = main env fuel st.
Proof.
  rewrite !main_after_init.
  destruct (init env "config.json" st) as [[[]|e|] st1]; try reflexivity.
  assert (Hbody : forall n,
             (connect_to_server env ;; chat_loop env n) st1 =
             match connect_to_server env st1 with
             | (Returned _, st2) => chat_loop env n st2
             | (Raised e, st2) => (Raised e, st2)
             | (Pending, st2) => (Pending, st2)
             end) by reflexivity.
  unfold try_finally. rewrite !Hbody.
  destruct (connect_to_server env st1) as [[[]|e|] st2]; try reflexivity.
  intros Hends. rewrite chat_loop_more_fuel; [reflexivity|].
  destruct (chat_loop env fuel st2) as [[[]|e|] st3]; simpl in *; congruence.
Qed.

(** The loop ends at the first pass when [quit] is typed, in any case and
    with blanks around it. *)
Lemma chat_loop_quit (fuel : nat) (st : State W) (line : string) (w : W) :
  input env (nl ++ "Query: ") (world st) = (inr line, w) ->
  lower (strip line) = "quit" ->
  chat_loop_while env (S fuel) st =
    (Returned tt, set_world w (record (EvInput (nl ++ "Query: ")) st)).
Proof.
  intros Hinput Hquit. simpl.
  unfold bind, chat_loop_body, try_except_Exception, bind, call.
  change (world (record (EvInput (nl ++ "Query: ")) st)) with (world st).
  rewrite Hinput, Hquit. reflexivity.
Qed.

(** A query that raises an [Exception] does not end the loop: the error is
    printed and the next pass starts. *)
Lemma chat_loop_body_reports (st st' : State W) (line : string) (w : W) (e : exn) :
  input env (nl ++ "Query: ") (world st) = (inr line, w) ->
  lower (strip line) <> "quit" ->
  process_query env (strip line)
    (set_world w (record (EvInput (nl ++ "Query: ")) st)) = (Raised e, st') ->
  is_Exception e = true ->
  chat_loop_body env st =
    (Returned Continue,
     record (EvPrint (OutText (nl ++ "Error: " ++ exn_str e))) st').
Proof.
  intros Hinput Hline Hquery Hexception.
  apply String.eqb_neq in Hline.
  unfold chat_loop_body, try_except_Exception, bind at 1, call.
  change (world (record (EvInput (nl ++ "Query: ")) st)) with (world st).
  rewrite Hinput, Hline. unfold bind at 1. rewrite Hquery, Hexception.
  reflexivity.
Qed.

End Fuel.

(** ** The theorems on concrete runs *)

Module Runs.

Import Scenario.

(** On the query of the example the first of the two requested tools is
    called, and the second reply, which requests a tool again, is the
    answer: it has no text. *)
Lemma process_query_single_round_trip_witness :
  first_reply (play calm) "what tables exist?" asks_tables tools_of_calm
    requested_two (mkStage [inr (tool_reply [call_2])] []) /\
  tool_calls_of
    (events_since asks_tables
       (snd (process_query (play calm) "what tables exist?" asks_tables)))
    = [EvCallTool "list_tables" (VDict [])] /\
  fst (process_query (play calm) "what tables exist?" asks_tables)
    = Returned None.
Proof.
  assert (Hpath : first_reply (play calm) "what tables exist?" asks_tables
                    tools_of_calm requested_two
                    (mkStage [inr (tool_reply [call_2])] [])).
  { split; [reflexivity|]. do 2 eexists. repeat split; reflexivity. }
  split; [exact Hpath|].
  destruct (process_query_single_round_trip (play calm) "what tables exist?"
              asks_tables) as (_ & Htool & _).
  destruct (Htool tools_of_calm requested_two _ call_1 [call_2] (VDict [])
              Hpath eq_refl eq_refl eq_refl) as (Hcalls & Hanswer).
  split; [exact Hcalls|].
  destruct (Hanswer tables (mkStage [inr (tool_reply [call_2])] []) "orders"
              [TextContent "users"] (tool_reply [call_2]) (mkStage [] [])
              (mkChoice "tool_calls" (mkChatCompletionMessage None (Some [call_2])))
              [] eq_refl eq_refl eq_refl eq_refl) as (Hreturned & _).
  exact Hreturned.
Defined.

(** A tool call that raises: the query raises the same exception and the
    model is not called a second time, although a reply was ready. *)
Lemma tool_failure_aborts_query :
  is_Exception mcp_error = true /\
  fst (process_query (play failing_tool) "what tables exist?" asks_once)
    = Raised mcp_error /\
  model_calls_of
    (events_since asks_once
       (snd (process_query (play failing_tool) "what tables exist?" asks_once)))
    = [first_request "what tables exist?" asks_once tools_of_calm] /\
  ~ (exists answer,
       fst (process_query (play failing_tool) "what tables exist?" asks_once)
         = Returned answer).
Proof.
  repeat split; try reflexivity.
  intros (answer & H). vm_compute in H. discriminate H.
Qed.

Lemma process_query_tool_failure_propagates_witness :
  first_reply (play failing_tool) "what tables exist?" asks_once tools_of_calm
    requested_one (mkStage [inr (text_reply "The table is missing.")] []) /\
  exists st',
    process_query (play failing_tool) "what tables exist?" asks_once
      = (Raised mcp_error, st') /\
    model_calls_of (events_since asks_once st')
      = [first_request "what tables exist?" asks_once tools_of_calm].
Proof.
  assert (Hpath : first_reply (play failing_tool) "what tables exist?" asks_once
                    tools_of_calm requested_one
                    (mkStage [inr (text_reply "The table is missing.")] [])).
  { split; [reflexivity|]. do 2 eexists. repeat split; reflexivity. }
  split; [exact Hpath|].
  destruct (proj1 (@process_query_tool_failure_propagates _ (play failing_tool)
                     "what tables exist?" asks_once tools_of_calm requested_one _
                     call_1 [] (VDict []) Hpath eq_refl eq_refl eq_refl)
              mcp_error
              (mkStage [inr (text_reply "The table is missing.")] []) eq_refl)
    as (st' & Hrun & _ & Hmodel & _).
  exists st'. split; assumption.
Defined.

Lemma process_query_plain_answer_witness :
  first_reply (play calm) "hello" says_hello tools_of_calm said_hello
    (mkStage [] []) /\
  finish_reason said_hello <> "tool_calls" /\
  exists st',
    process_query (play calm) "hello" says_hello = (Returned (Some "Hello!"), st') /\
    length (model_calls_of (events_since says_hello st')) = 1 /\
    tool_calls_of (events_since says_hello st') = [].
Proof.
  assert (Hpath : first_reply (play calm) "hello" says_hello tools_of_calm
                    said_hello (mkStage [] [])).
  { split; [reflexivity|]. do 2 eexists. repeat split; reflexivity. }
  assert (Hplain : finish_reason said_hello <> "tool_calls")
    by (vm_compute; discriminate).
  split; [exact Hpath|]. split; [exact Hplain|].
  destruct (process_query_plain_answer Hpath Hplain)
    as (st' & Hrun & _ & Hmodel & Htool & _).
  exists st'. repeat split; assumption.
Defined.

Lemma process_query_history_invariant_witness :
  In (EvCreate (Some "gpt-4o")
        (tool_history "what tables exist?" requested_two "orders" call_1) None)
     (events_since asks_tables
        (snd (process_query (play calm) "what tables exist?" asks_tables))) /\
  history_ok (tool_history "what tables exist?" requested_two "orders" call_1)
    = true.
Proof.
  assert (Hin : In (EvCreate (Some "gpt-4o")
                      (tool_history "what tables exist?" requested_two "orders"
                         call_1) None)
                   (events_since asks_tables
                      (snd (process_query (play calm) "what tables exist?"
                              asks_tables))))
    by (vm_compute; tauto).
  split; [exact Hin|].
  exact (proj1 (proj1 (process_query_history_invariant (play calm)
                         "what tables exist?" asks_tables) _ _ _ Hin)).
Defined.




(** The prompt is interrupted and closing the session fails: the failure of
    the teardown leaves [main], not the interrupt. *)
Lemma teardown_error_masks_primary :
  fst (init (play failing_close) "config.json" interrupted) = Returned tt /\
  fst ((connect_to_server (play failing_close) ;; chat_loop (play failing_close) 1)
         connected_interrupted) = Raised interrupt /\
  fst (cleanup (play failing_close) torn_interrupted) = Raised broken_pipe /\
  fst (main (play failing_close) 1 interrupted) = Raised broken_pipe /\
  fst (main (play failing_close) 1 interrupted) <> Raised interrupt.
Proof.
  repeat split; try (vm_compute; reflexivity).
  vm_compute. discriminate.
Qed.

Lemma main_teardown_error_wins_witness :
  init (play failing_close) "config.json" interrupted
    = (Returned tt, connected_interrupted) /\
  (connect_to_server (play failing_close) ;; chat_loop (play failing_close) 1)
    connected_interrupted = (Raised interrupt, torn_interrupted) /\
  main (play failing_close) 1 interrupted
    = (Raised broken_pipe, snd (cleanup (play failing_close) torn_interrupted)).
Proof.
  assert (Hinit : init (play failing_close) "config.json" interrupted
                  = (Returned tt, connected_interrupted))
    by (vm_compute; reflexivity).
  assert (Hbody : (connect_to_server (play failing_close) ;;
                   chat_loop (play failing_close) 1) connected_interrupted
                  = (Raised interrupt, torn_interrupted))
    by (vm_compute; reflexivity).
  split; [exact Hinit|]. split; [exact Hbody|].
  apply (proj1 (@main_teardown_error_wins _ (play failing_close) 1 _ _ _ _
                  Hinit Hbody)).
  vm_compute. reflexivity.
Defined.

Lemma get_server_name_and_config_first_entry_witness :
  get_server_name_and_config (connected (mkStage [] []))
    = (Returned ("mcp-clickhouse",
                 VDict [("command", VStr "uv"); ("args", VList [VStr "run"])]),
       connected (mkStage [] [])) /\
  exists message,
    connect_to_server (play calm) no_server
      = (Raised (Exn ValueError message), no_server).
Proof.
  split.
  - eapply (proj1 (get_server_name_and_config_first_entry (play calm)
                     (connected (mkStage [] [])))); reflexivity.
  - destruct (proj1 (proj2 (get_server_name_and_config_first_entry (play calm)
                              no_server))
                [("mcpServers", VDict [])] eq_refl (or_intror eq_refl))
      as (message & _ & Hconnect).
    exists message. exact Hconnect.
Defined.

(** A first reply that lists two requests and ends with [stop]: no tool is
    called, the model is called once, and the reply's own content, which is
    none, is the answer. *)
Lemma requests_under_stop_run_no_tool :
  msg_tool_calls (message Cases.stopped_with_requests) = Some [call_1; call_2] /\
  first_reply (play calm) "what tables exist?" Cases.asks_under_stop
    tools_of_calm Cases.stopped_with_requests
    (mkStage [inr (text_reply "unused")] []) /\
  tool_calls_of
    (events_since Cases.asks_under_stop
       (snd (process_query (play calm) "what tables exist?" Cases.asks_under_stop)))
    = [] /\
  model_calls_of
    (events_since Cases.asks_under_stop
       (snd (process_query (play calm) "what tables exist?" Cases.asks_under_stop)))
    = [first_request "what tables exist?" Cases.asks_under_stop tools_of_calm] /\
  fst (process_query (play calm) "what tables exist?" Cases.asks_under_stop)
    = Returned None.
Proof.
  split; [reflexivity|]. split.
  - split; [reflexivity|]. do 2 eexists. repeat split; reflexivity.
  - repeat split; vm_compute; reflexivity.
Qed.

(** A first reply that ends with [tool_calls] and carries no request, only
    text: the query raises and the text is not returned. *)
Lemma flagged_reply_without_requests_raises :
  msg_tool_calls (message Cases.flagged_without_requests) = None /\
  msg_content (message Cases.flagged_without_requests) = Some "Hello!" /\
  first_reply (play calm) "hello" Cases.flags_only tools_of_calm
    Cases.flagged_without_requests (mkStage [] []) /\
  fst (process_query (play calm) "hello" Cases.flags_only)
    = Raised (Exn TypeError "'NoneType' object is not subscriptable") /\
  ~ (exists answer,
       fst (process_query (play calm) "hello" Cases.flags_only) = Returned answer).
Proof.
  split; [reflexivity|]. split; [reflexivity|]. split.
  - split; [reflexivity|]. do 2 eexists. repeat split; reflexivity.
  - split; [vm_compute; reflexivity|].
    intros (answer & H). vm_compute in H. discriminate H.
Qed.

End Runs.

(** * The rest of the program *)

(** ** Rules for [respects] *)

Section Respects.

Variable W : Type.
Variable R : State W -> State W -> Prop.
Context {R_refl : Reflexive R} {R_trans : Transitive R}.

Lemma respects_unchanged (A : Type) (c : M W A) :
  (forall st, snd (c st) = st) -> respects R c.
Proof. intros H st. rewrite H. reflexivity. Qed.

Lemma respects_ret (A : Type) (a : A) : respects R (@ret W A a).
Proof. apply respects_unchanged. reflexivity. Qed.

Lemma respects_raise (A : Type) (e : exn) : respects R (@raise W A e).
Proof. apply respects_unchanged. reflexivity. Qed.

Lemma respects_pending (A : Type) : respects R (@pending W A).
Proof. apply respects_unchanged. reflexivity. Qed.

Lemma respects_gets (A : Type) (f : State W -> A) : respects R (gets f).
Proof. apply respects_unchanged. reflexivity. Qed.

Lemma respects_lift (A : Type) (r : result A) : respects R (@lift W A r).
Proof. destruct r; [apply respects_raise | apply respects_ret]. Qed.

Lemma respects_index0 (A : Type) (l : list A) : respects R (@index0 W A l).
Proof. destruct l; [apply respects_raise | apply respects_ret]. Qed.

Lemma respects_subscript0 (A : Type) (o : option (list A)) :
  respects R (@subscript0 W A o).
Proof. destruct o; [apply respects_index0 | apply respects_raise]. Qed.

Lemma respects_text_of (b : ContentBlock) : respects R (@text_of W b).
Proof. destruct b; [apply respects_ret | apply respects_raise..]. Qed.

Lemma respects_value_get (v : value) (key : string) (default : value) :
  respects R (@value_get W v key default).
Proof.
  destruct v; simpl; try apply respects_raise.
  destruct (lookup items key); apply respects_ret.
Qed.

Lemma respects_value_getitem (v : value) (key : string) :
  respects R (@value_getitem W v key).
Proof.
  destruct v; simpl; try apply respects_raise.
  destruct (lookup items key); [apply respects_ret | apply respects_raise].
Qed.

Lemma respects_first_item (v : value) : respects R (@first_item W v).
Proof.
  destruct v; simpl; try apply respects_raise.
  destruct items; [apply respects_raise | apply respects_ret].
Qed.

Lemma respects_session_attr (attr : string) : respects R (@session_attr W attr).
Proof. apply respects_unchanged. intros st. unfold session_attr, bind, gets.
  destruct (session st); reflexivity. Qed.

Lemma respects_modify (f : State W -> State W) :
  (forall st, R st (f st)) -> respects R (modify f).
Proof. intros H st. apply H. Qed.

Lemma respects_print (o : Output) :
  (forall st, R st (record (EvPrint o) st)) -> respects R (@print W o).
Proof. intros H st. apply H. Qed.

Lemma respects_call (A : Type) (ev : Event) (f : W -> result A * W) :
  (forall st w, R st (set_world w (record ev st))) -> respects R (call ev f).
Proof.
  intros H st. unfold call.
  destruct (f (world (record ev st))) as [[e|a] w]; apply H.
Qed.

Lemma respects_bind (A B : Type) (c : M W A) (k : A -> M W B) :
  respects R c -> (forall a, respects R (k a)) -> respects R (bind c k).
Proof.
  intros Hc Hk st. unfold bind. specialize (Hc st).
  destruct (c st) as [[a|e|] st1]; simpl in *; auto.
  specialize (Hk a st1). etransitivity; eassumption.
Qed.

Lemma respects_try_except (A : Type) (body : M W A) (handler : exn -> M W A) :
  respects R body -> (forall e, respects R (handler e)) ->
  respects R (try_except_Exception body handler).
Proof.
  intros Hb Hh st. unfold try_except_Exception. specialize (Hb st).
  destruct (body st) as [[a|e|] st1]; simpl in *; auto.
  destruct (is_Exception e); auto.
  specialize (Hh e st1). etransitivity; eassumption.
Qed.

Lemma respects_chat_loop_while (env : Collaborators W) :
  respects R (chat_loop_body env) ->
  forall fuel, respects R (chat_loop_while env fuel).
Proof.
  intros Hbody. induction fuel as [|fuel IH]; simpl.
  - apply respects_pending.
  - apply respects_bind; [exact Hbody|].
    intros [|]; [apply respects_ret | exact IH].
Qed.

End Respects.

Create HintDb respects.

#[export] Hint Resolve respects_ret respects_raise respects_pending respects_gets
  respects_lift respects_index0 respects_subscript0 respects_text_of
  respects_value_get respects_value_getitem respects_first_item
  respects_session_attr : respects.

(** A computation built by sequencing, branching and [try ... except]
    respects [R] when its calls, its output and its updates do; [leaf]
    proves that of each one. *)
Ltac respects_by leaf :=
  repeat first
    [ progress intros
    | progress cbv zeta
    | match goal with
      | |- Reflexive _ => exact _
      | |- Transitive _ => exact _
      | |- respects _ (bind _ _) => apply respects_bind
      | |- respects _ (try_except_Exception _ _) => apply respects_try_except
      | |- respects _ (call _ _) => apply respects_call; intros; leaf
      | |- respects _ (print _) => apply respects_print; intros; leaf
      | |- respects _ (modify _) => apply respects_modify; intros; leaf
      | |- respects _ (if ?b then _ else _) => destruct b
      | |- respects _ (match ?x with _ => _ end) => destruct x
      end
    | solve [auto with respects typeclass_instances]
    | solve [leaf] ].

(** *** The two relations *)

#[export] Instance same_client_refl (W : Type) : Reflexive (@same_client W).
Proof. intros st. repeat split. Qed.

#[export] Instance same_client_trans (W : Type) : Transitive (@same_client W).
Proof.
  intros a b c (H1 & H2 & H3 & H4) (H5 & H6 & H7 & H8).
  repeat split; congruence.
Qed.

#[export] Instance adds_refl (W : Type) (P : list Event -> Prop) `{Additive P} :
  Reflexive (@adds W P).
Proof.
  intros st. exists []. rewrite app_nil_r. split; [reflexivity | apply additive_nil].
Qed.

#[export] Instance adds_trans (W : Type) (P : list Event -> Prop) `{Additive P} :
  Transitive (@adds W P).
Proof.
  intros a b c (n1 & H1 & P1) (n2 & H2 & P2).
  exists (n1 ++ n2)%list. rewrite H2, H1, app_assoc.
  split; [reflexivity | apply additive_app; assumption].
Qed.

#[export] Instance every_additive (p : Event -> bool) : Additive (every p).
Proof.
  split; [reflexivity|].
  unfold every. intros a b Ha Hb. rewrite forallb_app, Ha, Hb. reflexivity.
Qed.

Lemma adds_event (W : Type) (P : list Event -> Prop) (ev : Event) (st : State W) (w : W) :
  P [ev] -> adds P st (set_world w (record ev st)).
Proof. intros H. exists [ev]. split; [reflexivity | exact H]. Qed.

Lemma adds_output (W : Type) (P : list Event -> Prop) (ev : Event) (st : State W) :
  P [ev] -> adds P st (record ev st).
Proof. intros H. exists [ev]. split; [reflexivity | exact H]. Qed.

Lemma adds_events_since (W : Type) (P : list Event -> Prop) (st st' : State W) :
  adds P st st' -> P (events_since st st').
Proof.
  intros (new & Hlog & HP). rewrite (@events_since_app W st st' new Hlog). exact HP.
Qed.

Ltac adds_leaf :=
  first [ apply adds_event; reflexivity | apply adds_output; reflexivity ].

Ltac same_client_leaf := repeat split.

Lemma length_filter_app (p : Event -> bool) (a b : list Event) :
  length (filter p (a ++ b)) = length (filter p a) + length (filter p b).
Proof. rewrite filter_app, length_app. reflexivity. Qed.

#[export] Instance within_budget_additive : Additive within_budget.
Proof.
  split.
  - unfold within_budget. simpl. lia.
  - unfold within_budget, prompts_of, tool_calls_of, model_calls_of.
    intros a b (Ha1 & Ha2 & Ha3) (Hb1 & Hb2 & Hb3).
    rewrite !length_filter_app. lia.
Qed.

(** Every path of a computation, one case per answer of a collaborator. *)
Ltac all_paths :=
  repeat match goal with
         | |- context [match ?x with _ => _ end] =>
             lazymatch x with
             | context [match _ with _ => _ end] => fail
             | _ => destruct x eqn:?; simpl
             end
         end.

(** ** The chat loop *)

Section ChatLoop.

Variable W : Type.
Variable env : Collaborators W.

Lemma chat_loop_unfold (fuel : nat) (st : State W) :
  chat_loop env fuel st =
    chat_loop_while env fuel
      (record (EvPrint (OutText "Type your queries or 'quit' to exit."))
         (record (EvPrint (OutText (nl ++ "MCP Client Started!"))) st)).
Proof. reflexivity. Qed.

Lemma respects_process_query_client (query : string) :
  respects (@same_client W) (process_query env query).
Proof. unfold process_query. respects_by same_client_leaf. Qed.

Lemma respects_process_query_events (p : Event -> bool) (query : string) :
  (forall m messages catalog,
     fresh_history (EvCreate m messages catalog) = true ->
     p (EvCreate m messages catalog) = true) ->
  p EvListTools = true ->
  (forall name args, p (EvCallTool name args) = true) ->
  (forall o, p (EvPrint o) = true) ->
  respects (adds (every p)) (process_query env query).
Proof.
  intros Hcreate Hlist Htool Hprint. unfold process_query.
  respects_by ltac:(first [ apply adds_event | apply adds_output ];
                    unfold every; simpl;
                    rewrite ?Hlist, ?Htool, ?Hprint;
                    try rewrite Hcreate by reflexivity; reflexivity).
Qed.

Lemma respects_chat_loop_body_client :
  respects (@same_client W) (chat_loop_body env).
Proof.
  unfold chat_loop_body.
  respects_by ltac:(first [ apply respects_process_query_client
                          | solve [same_client_leaf] ]).
Qed.

Lemma respects_chat_loop_body_events (p : Event -> bool) :
  (forall m messages catalog,
     fresh_history (EvCreate m messages catalog) = true ->
     p (EvCreate m messages catalog) = true) ->
  p EvListTools = true ->
  (forall name args, p (EvCallTool name args) = true) ->
  (forall o, p (EvPrint o) = true) ->
  (forall prompt, p (EvInput prompt) = true) ->
  respects (adds (every p)) (chat_loop_body env).
Proof.
  intros Hcreate Hlist Htool Hprint Hinput. unfold chat_loop_body.
  respects_by ltac:(first [ apply respects_process_query_events; assumption
                          | first [ apply adds_event | apply adds_output ];
                            unfold every; simpl;
                            rewrite ?Hprint, ?Hinput; reflexivity ]).
Qed.

Lemma respects_chat_loop (R : State W -> State W -> Prop)
    `{Reflexive _ R} `{Transitive _ R} (fuel : nat) :
  respects R (chat_loop_body env) ->
  (forall o st, R st (record (EvPrint o) st)) ->
  respects R (chat_loop env fuel).
Proof.
  intros Hbody Hprint. unfold chat_loop.
  apply respects_bind; [assumption | apply respects_print; apply Hprint |].
  intros _.
  apply respects_bind; [assumption | apply respects_print; apply Hprint |].
  intros _. apply respects_chat_loop_while; assumption.
Qed.

(** X1: the chat loop leaves the client as it is.  However long the loop
    runs and however it ends, the exit stack, the configuration, the model
    name and the session of the client are the ones it started with, and
    the loop has only prompted, printed, listed tools, called the model and
    called tools: it has entered, exited, initialized and re-read nothing. *)
Theorem chat_loop_keeps_client (fuel : nat) (st : State W) :
  same_client st (snd (chat_loop env fuel st)) /\
  every conversation_event (events_since st (snd (chat_loop env fuel st))).
Proof.
  split.
  - apply respects_chat_loop; try exact _.
    + apply respects_chat_loop_body_client.
    + intros o st0. repeat split.
  - apply adds_events_since.
    apply (@respects_chat_loop (adds (every conversation_event)) _ _ fuel).
    + apply respects_chat_loop_body_events; intros; reflexivity.
    + intros o st0. apply adds_output. reflexivity.
Qed.

(** X2: the loop keeps no conversation.  Every model call made during the
    loop, in whatever pass, is sent a history that starts with a user turn
    and holds at most three turns: the turns of earlier queries are never
    sent again. *)
Theorem chat_loop_fresh_histories (fuel : nat) (st : State W) :
  every fresh_history (events_since st (snd (chat_loop env fuel st))).
Proof.
  apply adds_events_since.
  apply (@respects_chat_loop (adds (every fresh_history)) _ _ fuel).
  - apply respects_chat_loop_body_events; intros; auto.
  - intros o st0. apply adds_output. reflexivity.
Qed.

(** One pass of the loop prompts once and stays within the budget. *)
Lemma chat_loop_body_within_budget :
  respects (adds within_budget) (chat_loop_body env).
Proof.
  intros [w0 stack cfg mdl ses lg].
  unfold chat_loop_body, try_except_Exception, process_query.
  unfold_monad. simpl.
  all_paths;
    (eexists; split;
     [ simpl; rewrite <- ?app_assoc; reflexivity
     | unfold within_budget; simpl; lia ]).
Qed.

(** X3: the cost of a conversation.  In every run of the loop, the session
    is asked for its tools at most once per prompt, at most one tool is
    called per prompt, and the model is called at most twice per prompt. *)
Theorem chat_loop_within_budget (fuel : nat) (st : State W) :
  within_budget (events_since st (snd (chat_loop env fuel st))).
Proof.
  apply adds_events_since.
  apply (@respects_chat_loop (adds within_budget) _ _ fuel).
  - apply chat_loop_body_within_budget.
  - intros o st0. apply adds_output. unfold within_budget. simpl. lia.
Qed.




(** X6: [quit] is never a query.  When the line typed at the first prompt
    is [quit] once the white space around it, of any kind Unicode has, is
    removed and its letters are lowered, the loop returns at once: after the two lines of the banner
    and the prompt nothing is printed, and neither the session nor the
    model is called. *)
Theorem chat_loop_quits (fuel : nat) (st : State W) (line : string) (w : W) :
  input env (nl ++ "Query: ") (world st) = (inr line, w) ->
  lower (strip line) = "quit" ->
  chat_loop env (S fuel) st =
    (Returned tt,
     mkState w (exit_stack st) (config st) (model st) (session st)
       (log st ++ [EvPrint (OutText (nl ++ "MCP Client Started!"));
                   EvPrint (OutText "Type your queries or 'quit' to exit.");
                   EvInput (nl ++ "Query: ")])).
Proof.
  intros Hinput Hquit.
  rewrite chat_loop_unfold.
  rewrite (@chat_loop_quit W env fuel
             (record (EvPrint (OutText "Type your queries or 'quit' to exit."))
                (record (EvPrint (OutText (nl ++ "MCP Client Started!"))) st))
             line w Hinput Hquit).
  unfold set_world, record. simpl. rewrite <- !app_assoc. reflexivity.
Qed.

(** X7: an answer without text is reported as an error.  When a query
    returns [None], which it does when the reply it takes the answer from
    has no content, nothing of the answer is printed: joining the newline
    and [None] raises a [TypeError], whose message is printed as the error
    of the query, and the loop goes on. *)
Theorem chat_loop_body_answer_without_text (st st' : State W) (line : string) (w : W) :
  input env (nl ++ "Query: ") (world st) = (inr line, w) ->
  lower (strip line) <> "quit" ->
  process_query env (strip line)
    (set_world w (record (EvInput (nl ++ "Query: ")) st)) = (Returned None, st') ->
  chat_loop_body env st =
    (Returned Continue,
     record (EvPrint (OutText (nl ++ "Error: can only concatenate str (not "
                               ++ dquote ++ "NoneType" ++ dquote ++ ") to str")))
       st').
Proof.
  intros Hinput Hline Hquery.
  apply String.eqb_neq in Hline.
  unfold chat_loop_body, try_except_Exception, bind at 1, call.
  change (world (record (EvInput (nl ++ "Query: ")) st)) with (world st).
  rewrite Hinput, Hline. unfold bind at 1. rewrite Hquery.
  reflexivity.
Qed.


End ChatLoop.

(** ** Construction *)

Section Construction.

Variable W : Type.
Variable env : Collaborators W.

(** X8: without an API key nothing is started.  When the configuration
    file loads and [OPENAI_API_KEY] is unset or empty, the constructor
    raises a [ValueError] after it has stored the configuration and the
    model name, and [main] ends with that error: the file has been read and
    nothing else has happened, no client of the model is built, no server is
    started and no teardown runs. *)
Theorem init_without_key (fuel : nat) (st : State W) (loaded : value) (w1 : W) :
  read_config env "config.json" (world st) = (inr loaded, w1) ->
  getenv env "OPENAI_API_KEY" w1 = None \/
  getenv env "OPENAI_API_KEY" w1 = Some "" ->
  let st1 := mkState w1 [] loaded (getenv env "MODEL" w1) (session st)
               (log st ++ [EvReadConfig "config.json"]) in
  init env "config.json" st = (Raised no_key_error, st1) /\
  main env fuel st = (Raised no_key_error, st1).
Proof.
  intros Hread Hkey st1.
  assert (Hinit : init env "config.json" st = (Raised no_key_error, st1)).
  { unfold init, load_config. unfold_monad. simpl. rewrite Hread. simpl.
    destruct Hkey as [Hkey|Hkey]; rewrite Hkey; reflexivity. }
  split; [exact Hinit|].
  rewrite main_after_init, Hinit. reflexivity.
Qed.

(** X9: a configuration file that cannot be read ends the construction.
    A missing file is reported as a [FileNotFoundError] that names the
    path, a file that is not JSON as a [ValueError] that names the path,
    and any other failure of reading as it is.  In each case the
    constructor stops there: the configuration of the client is not
    touched and no client of the model is built. *)
Theorem init_config_unreadable (config_path : string) (st : State W) (e : exn) (w1 : W) :
  read_config env config_path (world st) = (inl e, w1) ->
  let st1 := mkState w1 [] (config st) (model st) (session st)
               (log st ++ [EvReadConfig config_path]) in
  (exn_cls e = FileNotFoundError ->
   init env config_path st =
     (Raised (Exn FileNotFoundError ("❌ 配置文件 " ++ config_path ++ " 未找到")), st1)) /\
  (exn_cls e = JSONDecodeError ->
   init env config_path st =
     (Raised (Exn ValueError ("❌ 配置文件 " ++ config_path ++ " 格式错误")), st1)) /\
  (exn_cls e <> FileNotFoundError -> exn_cls e <> JSONDecodeError ->
   init env config_path st = (Raised e, st1)).
Proof.
  intros Hread st1.
  assert (Hinit : init env config_path st =
                  (Raised match exn_cls e with
                          | FileNotFoundError =>
                              Exn FileNotFoundError
                                ("❌ 配置文件 " ++ config_path ++ " 未找到")
                          | JSONDecodeError =>
                              Exn ValueError
                                ("❌ 配置文件 " ++ config_path ++ " 格式错误")
                          | _ => e
                          end, st1)).
  { unfold init, load_config. unfold_monad. simpl. rewrite Hread. simpl.
    destruct (exn_cls e); reflexivity. }
  rewrite Hinit. repeat split.
  - intros Hcls. rewrite Hcls. reflexivity.
  - intros Hcls. rewrite Hcls. reflexivity.
  - intros Hfile Hjson. destruct (exn_cls e); try reflexivity; congruence.
Qed.

(** X10: what a successful construction leaves.  The client has an empty
    exit stack, no session, the configuration read from the file and the
    model name of the environment, and the construction has read the file
    and then built the client of the model with the key and the base URL of
    the environment, in this order. *)
Theorem init_constructs (config_path : string) (st : State W)
    (loaded : value) (w1 w2 : W) (key : string) :
  read_config env config_path (world st) = (inr loaded, w1) ->
  getenv env "OPENAI_API_KEY" w1 = Some key ->
  key <> "" ->
  openai_new env key (getenv env "BASE_URL" w1) w1 = (inr tt, w2) ->
  init env config_path st =
    (Returned tt,
     mkState w2 [] loaded (getenv env "MODEL" w1) false
       (log st ++ [EvReadConfig config_path;
                   EvOpenAI key (getenv env "BASE_URL" w1)])).
Proof.
  intros Hread Hkey Hnonempty Hopenai.
  unfold init, load_config. unfold_monad. simpl. rewrite Hread. simpl.
  rewrite Hkey.
  destruct key as [|c key]; [congruence|].
  simpl. rewrite Hopenai. simpl. rewrite <- app_assoc. reflexivity.
Qed.

End Construction.


(** ** Connection *)

Lemma adds_push (W : Type) (P : list Event -> Prop) (ev : Event)
    (stack : list ContextManager) (st : State W) :
  P [ev] -> adds P st (record ev (set_exit_stack stack st)).
Proof. intros H. exists [ev]. split; [reflexivity | exact H]. Qed.

Lemma adds_silent (W : Type) (P : list Event -> Prop) `{Additive P} (st st' : State W) :
  log st' = log st -> adds P st st'.
Proof.
  intros Hlog. exists []. rewrite app_nil_r. split; [exact Hlog | apply additive_nil].
Qed.

Ltac adds_any :=
  first [ apply adds_event; reflexivity
        | apply adds_output; reflexivity
        | apply adds_push; reflexivity
        | apply adds_silent; [exact _ | reflexivity] ].

Lemma every_no_prompt (p : Event -> bool) (evs : list Event) :
  (forall ev, p ev = true -> is_input ev = false) ->
  every p evs -> prompts_of evs = [].
Proof.
  intros Hp. unfold every. induction evs as [|ev evs IH]; simpl; [reflexivity|].
  intros H. apply andb_prop in H. destruct H as (Hev & Hrest).
  rewrite (Hp ev Hev). apply IH. exact Hrest.
Qed.

Section Connection.

Variable W : Type.
Variable env : Collaborators W.

Lemma respects_load_config (P : list Event -> Prop) `{Additive P} (config_path : string) :
  P [EvReadConfig config_path] ->
  respects (adds P) (load_config env config_path).
Proof.
  intros HP st. unfold load_config.
  assert (Hcall : respects (adds P)
                    (call (EvReadConfig config_path) (read_config env config_path)))
    by (apply respects_call; intros; apply adds_event; exact HP).
  specialize (Hcall st).
  destruct (call (EvReadConfig config_path) (read_config env config_path) st)
    as [[a|e|] st1]; simpl in *; auto.
  destruct (exn_cls e); simpl; auto.
Qed.

Lemma respects_init_connection (config_path : string) :
  respects (adds (every connection_event)) (init env config_path).
Proof.
  unfold init.
  respects_by ltac:(first [ apply respects_load_config; [exact _ | reflexivity]
                          | adds_any ]).
Qed.

Lemma respects_connect_connection :
  respects (adds (every connection_event)) (connect_to_server env).
Proof.
  unfold connect_to_server, get_server_name_and_config, enter_async_context.
  respects_by adds_any.
Qed.

(** X11: connecting calls neither the model nor a tool and never prompts.
    Whatever the configuration and however the server answers, the
    constructor and [connect_to_server] add to the log only the reading of
    the file, the building of the model's client, output, the entering of
    the two context managers, the handshake and the listing of the tools. *)
Theorem startup_is_silent (config_path : string) (st : State W) :
  every connection_event (events_since st (snd (init env config_path st))) /\
  every connection_event (events_since st (snd (connect_to_server env st))).
Proof.
  split; apply adds_events_since;
    [apply respects_init_connection | apply respects_connect_connection].
Qed.

(** Up to the start of the transport, connecting does the same on every
    path. *)
Lemma connect_to_server_launch (st : State W) (name : string)
    (fields : list (string * value)) (params : StdioServerParameters) :
  launches env st name fields params ->
  connect_to_server env st =
    match transport_aenter env params (world st) with
    | (inl e, w1) =>
        (Raised e,
         mkState w1 (exit_stack st) (config st) (model st) (session st)
           (log st ++ announces name (get_or fields "command" VNone)
                        (get_or fields "args" (VList []))
                        (get_or fields "env" (VDict [])) params))
    | (inr _, w1) =>
        (enter_async_context Session None (session_aenter env) ;;
         modify (set_session true) ;;
         session_attr "initialize" ;;
         call EvInitialize (session_initialize env) ;;
         session_attr "list_tools" ;;
         tools <- call EvListTools (session_list_tools env) ;;
         print (OutNames (nl ++ "Connected to server with tools:")
                  (map tool_name tools)))
          (mkState w1 (Transport :: exit_stack st) (config st) (model st)
             (session st)
             (log st ++ announces name (get_or fields "command" VNone)
                          (get_or fields "args" (VList []))
                          (get_or fields "env" (VDict [])) params
                     ++ [EvPushExit Transport]))
    end.
Proof.
  intros ((items & others & Hcfg & Hservers) & Hparams).
  unfold get_or in *.
  destruct st as [w0 stack cfg mdl ses lg]. simpl in *. subst cfg.
  unfold connect_to_server.
  unfold bind at 1.
  unfold get_server_name_and_config, try_except_Exception.
  unfold_monad. simpl. rewrite Hservers. simpl. rewrite ?Hservers. simpl.
  destruct (lookup fields "command"), (lookup fields "args"), (lookup fields "env");
    simpl; rewrite Hparams; simpl;
    unfold enter_async_context, announces; unfold_monad; simpl;
    destruct (transport_aenter env params w0) as [[e|[]] w1]; simpl;
    rewrite <- ?app_assoc; reflexivity.
Qed.

(** X12: what a successful connection leaves.  The server started is the
    first entry of the configuration, launched with its command, its
    arguments and its environment, or with no command, no argument and an
    empty environment where the entry has none.  The transport is entered
    first and the session second, then the session is initialized and its
    tools are listed and printed.  Afterwards the session is on top of the
    exit stack and the transport below it, and the client has its session. *)
Theorem connect_to_server_connects (st : State W) (name : string)
    (fields : list (string * value)) (params : StdioServerParameters)
    (w1 w2 w3 w4 : W) (tools : list Tool) :
  launches env st name fields params ->
  transport_aenter env params (world st) = (inr tt, w1) ->
  session_aenter env w1 = (inr tt, w2) ->
  session_initialize env w2 = (inr tt, w3) ->
  session_list_tools env w3 = (inr tools, w4) ->
  connect_to_server env st =
    (Returned tt,
     mkState w4 (Session :: Transport :: exit_stack st) (config st) (model st) true
       (log st ++ announces name (get_or fields "command" VNone)
                    (get_or fields "args" (VList []))
                    (get_or fields "env" (VDict [])) params
               ++ [EvPushExit Transport; EvEnter Session None; EvPushExit Session;
                   EvInitialize; EvListTools;
                   EvPrint (OutNames (nl ++ "Connected to server with tools:")
                              (map tool_name tools))])).
Proof.
  intros Hlaunch Htransport Hsession Hinit Htools.
  rewrite (connect_to_server_launch Hlaunch), Htransport.
  unfold enter_async_context. unfold_monad. simpl.
  rewrite Hsession. simpl. rewrite Hinit. simpl. rewrite Htools. simpl.
  rewrite <- !app_assoc. reflexivity.
Qed.

(** X13: what a failed connection leaves.  When the transport cannot be
    entered nothing is registered on the exit stack.  When the session
    cannot be entered the transport stays registered and the client has
    no new session.  When the handshake fails both stay registered and the
    client has its session.  In each case the exception leaves
    [connect_to_server] as it is and the tools are not listed. *)
Theorem connect_to_server_failures (st : State W) (name : string)
    (fields : list (string * value)) (params : StdioServerParameters) :
  launches env st name fields params ->
  let announced :=
    (log st ++ announces name (get_or fields "command" VNone)
               (get_or fields "args" (VList []))
               (get_or fields "env" (VDict [])) params)%list in
  (forall e w1,
     transport_aenter env params (world st) = (inl e, w1) ->
     connect_to_server env st =
       (Raised e,
        mkState w1 (exit_stack st) (config st) (model st) (session st) announced)) /\
  (forall e w1 w2,
     transport_aenter env params (world st) = (inr tt, w1) ->
     session_aenter env w1 = (inl e, w2) ->
     connect_to_server env st =
       (Raised e,
        mkState w2 (Transport :: exit_stack st) (config st) (model st) (session st)
          (announced ++ [EvPushExit Transport; EvEnter Session None]))) /\
  (forall e w1 w2 w3,
     transport_aenter env params (world st) = (inr tt, w1) ->
     session_aenter env w1 = (inr tt, w2) ->
     session_initialize env w2 = (inl e, w3) ->
     connect_to_server env st =
       (Raised e,
        mkState w3 (Session :: Transport :: exit_stack st) (config st) (model st)
          true
          (announced ++ [EvPushExit Transport; EvEnter Session None;
                         EvPushExit Session; EvInitialize]))).
Proof.
  intros Hlaunch announced. subst announced. split; [|split].
  - intros e w1 Htransport.
    rewrite (connect_to_server_launch Hlaunch), Htransport. reflexivity.
  - intros e w1 w2 Htransport Hsession.
    rewrite (connect_to_server_launch Hlaunch), Htransport.
    unfold enter_async_context. unfold_monad. simpl.
    rewrite Hsession. simpl. rewrite <- !app_assoc. reflexivity.
  - intros e w1 w2 w3 Htransport Hsession Hinit.
    rewrite (connect_to_server_launch Hlaunch), Htransport.
    unfold enter_async_context. unfold_monad. simpl.
    rewrite Hsession. simpl. rewrite Hinit. simpl.
    rewrite <- !app_assoc. reflexivity.
Qed.

(** X14: an entry that cannot be launched starts nothing.  When the first
    entry of [mcpServers] is not an object, reading its command raises an
    [AttributeError] once the name of the server is printed; when the
    launch parameters are refused, their exception is raised once the name
    and the three values are printed.  In both cases no context manager is
    entered and the client is as it was. *)
Theorem connect_to_server_rejects_entry (st : State W) (items : list (string * value))
    (name : string) (server : value) (others : list (string * value)) :
  config st = VDict items ->
  lookup items "mcpServers" = Some (VDict ((name, server) :: others)) ->
  let named :=
    (log st ++ [EvPrint (OutText ("Connecting to server: " ++ name))])%list in
  ((forall fields, server <> VDict fields) ->
   connect_to_server env st =
     (Raised (Exn AttributeError
                ("'" ++ type_name server ++ "' object has no attribute 'get'")),
      mkState (world st) (exit_stack st) (config st) (model st) (session st) named)) /\
  (forall fields e,
     server = VDict fields ->
     server_params_new env (get_or fields "command" VNone)
       (get_or fields "args" (VList [])) (get_or fields "env" (VDict [])) = inl e ->
     connect_to_server env st =
       (Raised e,
        mkState (world st) (exit_stack st) (config st) (model st) (session st)
          (named ++
           [EvPrint (OutLabelled "Server Command:" (get_or fields "command" VNone));
            EvPrint (OutLabelled "Server Args:" (get_or fields "args" (VList [])));
            EvPrint (OutLabelled "Server Env:" (get_or fields "env" (VDict [])))]))).
Proof.
  intros Hcfg Hservers named. subst named.
  destruct st as [w0 stack cfg mdl ses lg]. simpl in *. subst cfg.
  split.
  - intros Hserver.
    unfold connect_to_server. unfold bind at 1.
    unfold get_server_name_and_config, try_except_Exception.
    unfold_monad. simpl. rewrite Hservers. simpl. rewrite ?Hservers. simpl.
    destruct server; try reflexivity.
    exfalso. exact (Hserver items0 eq_refl).
  - intros fields e Hserver Hparams. subst server. unfold get_or in *.
    unfold connect_to_server. unfold bind at 1.
    unfold get_server_name_and_config, try_except_Exception.
    unfold_monad. simpl. rewrite Hservers. simpl. rewrite ?Hservers. simpl.
    destruct (lookup fields "command"), (lookup fields "args"), (lookup fields "env");
      simpl; rewrite Hparams; simpl; rewrite <- ?app_assoc; reflexivity.
Qed.

End Connection.

(** ** The whole program and the remaining edges *)

Section Whole.

Variable W : Type.
Variable env : Collaborators W.

Lemma connection_event_no_prompt (ev : Event) :
  connection_event ev = true -> is_input ev = false.
Proof. destruct ev; simpl; intros H; try reflexivity; discriminate H. Qed.

Lemma is_exit_no_prompt (ev : Event) : is_exit ev = true -> is_input ev = false.
Proof. destruct ev; simpl; intros H; try reflexivity; discriminate H. Qed.

Lemma prompts_of_app (a b : list Event) :
  prompts_of (a ++ b) = (prompts_of a ++ prompts_of b)%list.
Proof. apply filter_app. Qed.

(** X15: the user is prompted only by a connected client.  In every run of
    [main] in which a prompt is shown, the constructor has returned and
    [connect_to_server] has returned, leaving the session on top of the
    exit stack and the transport below it. *)
Theorem main_prompts_after_connect (fuel : nat) (st : State W) :
  prompts_of (events_since st (snd (main env fuel st))) <> [] ->
  exists st1 st2,
    init env "config.json" st = (Returned tt, st1) /\
    connect_to_server env st1 = (Returned tt, st2) /\
    exit_stack st2 = [Session; Transport].
Proof.
  rewrite main_after_init.
  destruct (init_run env "config.json" st) as (n0 & Hl0 & _ & _ & Hs0).
  pose proof (respects_init_connection env "config.json" st) as (n0' & Hl0' & Hn0).
  destruct (init env "config.json" st) as [[[]|e|] st1] eqn:Hinit;
    simpl in Hl0, Hs0, Hl0'.
  - pose proof (steps_connect_to_server env st1) as (n1 & Hl1 & _ & Hs1 & Hp1).
    pose proof (respects_connect_connection env st1) as (n1' & Hl1' & Hn1).
    assert (Hbody : forall n,
               (connect_to_server env ;; chat_loop env n) st1 =
               match connect_to_server env st1 with
               | (Returned _, st2) => chat_loop env n st2
               | (Raised e, st2) => (Raised e, st2)
               | (Pending, st2) => (Pending, st2)
               end) by reflexivity.
    unfold try_finally. rewrite Hbody.
    destruct (connect_to_server env st1) as [[[]|e|] st2] eqn:Hconnect;
      simpl in Hl1, Hs1, Hp1, Hl1'.
    + intros _. exists st1, st2. split; [reflexivity|]. split; [exact Hconnect|].
      rewrite Hs1, Hp1, Hs0. reflexivity.
    + destruct (cleanup_run env st2) as (n2 & Hl2 & _ & _ & Hf2 & _ & _).
      intros Hprompt. exfalso. apply Hprompt.
      assert (Hevs : forall st3, log st3 = (log st2 ++ n2)%list ->
                       prompts_of (events_since st st3) = []).
      { intros st3 Hl3.
        rewrite (@events_since_app W st st3 ((n0' ++ n1') ++ n2)%list)
          by (rewrite Hl3, Hl1', Hl0', <- !app_assoc; reflexivity).
        rewrite !prompts_of_app.
        rewrite (every_no_prompt connection_event_no_prompt Hn0).
        rewrite (every_no_prompt connection_event_no_prompt Hn1).
        rewrite (every_no_prompt is_exit_no_prompt Hf2). reflexivity. }
      destruct (cleanup env st2) as [[[]|e2|] st3]; simpl in *; apply Hevs; exact Hl2.
    + intros Hprompt. exfalso. apply Hprompt. simpl.
      rewrite (@events_since_app W st st2 (n0' ++ n1')%list)
        by (rewrite Hl1', Hl0', <- !app_assoc; reflexivity).
      rewrite prompts_of_app.
      rewrite (every_no_prompt connection_event_no_prompt Hn0).
      rewrite (every_no_prompt connection_event_no_prompt Hn1). reflexivity.
  - intros Hprompt. exfalso. apply Hprompt. simpl.
    rewrite (@events_since_app W st st1 n0' Hl0').
    apply (every_no_prompt connection_event_no_prompt Hn0).
  - intros Hprompt. exfalso. apply Hprompt. simpl.
    rewrite (@events_since_app W st st1 n0' Hl0').
    apply (every_no_prompt connection_event_no_prompt Hn0).
Qed.

(** X16: what the selection of the server reports.  Every exception of
    [get_server_name_and_config] is a [ValueError] whose message is the
    fixed prefix followed by the message of what went wrong inside: the
    program's own message that no server is configured, which is thus
    wrapped a second time, or the interpreter's message that the
    configuration, or the value of [mcpServers], is not an object. *)
Theorem get_server_name_and_config_messages (st : State W) (e : exn) :
  fst (get_server_name_and_config st) = Raised e ->
  exn_cls e = ValueError /\
  exists inner,
    exn_str e = selection_prefix ++ inner /\
    (inner = no_server_message \/
     inner = "'" ++ type_name (config st) ++ "' object has no attribute 'get'" \/
     exists servers,
       value_get (config st) "mcpServers" (VDict []) st = (Returned servers, st) /\
       inner = "'" ++ type_name servers ++ "' object has no attribute 'items'").
Proof.
  unfold get_server_name_and_config, try_except_Exception, selection_prefix,
    no_server_message.
  unfold_monad.
  destruct (config st) as [| | | | | |items] eqn:Hcfg; simpl;
    try (intros H; inversion H; subst; simpl; split; [reflexivity|];
         eexists; split; [reflexivity|]; right; left; reflexivity).
  destruct (lookup items "mcpServers") as [servers|] eqn:Hlookup; simpl.
  - destruct (truthy servers) eqn:Htruthy; simpl.
    + rewrite ?Hlookup.
      destruct servers as [| | | | | |[|[n c] entries]]; simpl;
        try discriminate Htruthy;
        intros H; inversion H; subst; simpl; split; try reflexivity;
        eexists; (split; [reflexivity|]); right; right; eexists;
        (split; [reflexivity|]); reflexivity.
    + intros H. inversion H. subst. simpl. split; [reflexivity|].
      eexists. split; [reflexivity|]. left. reflexivity.
  - intros H. inversion H. subst. simpl. split; [reflexivity|].
    eexists. split; [reflexivity|]. left. reflexivity.
Qed.

(** X17: a reply that announces requests and carries none ends the query
    before any tool is called.  When the first choice has the finish reason
    [tool_calls] and no list of requests, the query raises a [TypeError];
    when its list of requests is empty, an [IndexError].  In both cases the
    session has listed its tools, the model has been called once, and
    nothing else has happened. *)
Theorem process_query_malformed_reply (query : string) (st : State W)
    (tools : list Tool) (content : Choice) (w : W) :
  first_reply env query st tools content w ->
  finish_reason content = "tool_calls" ->
  let st2 := mkState w (exit_stack st) (config st) (model st) (session st)
               (log st ++ [EvListTools; first_request query st tools]) in
  (msg_tool_calls (message content) = None ->
   process_query env query st
     = (Raised (Exn TypeError "'NoneType' object is not subscriptable"), st2)) /\
  (msg_tool_calls (message content) = Some [] ->
   process_query env query st
     = (Raised (Exn IndexError "list index out of range"), st2)).
Proof.
  intros Hpath Hreason st2. subst st2.
  rewrite (process_query_first_reply Hpath), Hreason. simpl.
  unfold_monad.
  split; intros Hcalls; rewrite Hcalls; reflexivity.
Qed.

(** X18: a result that does not start with text ends the query after the
    tool has run.  When the first block of the tool's result is an image or
    an embedded resource, reading its text raises an [AttributeError]: the
    tool has been called, its result is lost, and the model is not called a
    second time. *)
Theorem process_query_non_text_result
    (query : string) (st : State W) (tools : list Tool) (content : Choice) (w : W)
    (tool_call : ToolCall) (more : list ToolCall) (args : value)
    (result : CallToolResult) (w3 : W) (block : ContentBlock)
    (blocks : list ContentBlock) :
  first_reply env query st tools content w ->
  finish_reason content = "tool_calls" ->
  msg_tool_calls (message content) = Some (tool_call :: more) ->
  json_loads env (fn_arguments (tc_function tool_call)) = inr args ->
  session_call_tool env (fn_name (tc_function tool_call)) args w = (inr result, w3) ->
  result_content result = block :: blocks ->
  (forall text, block <> TextContent text) ->
  exists message st',
    process_query env query st = (Raised (Exn AttributeError message), st') /\
    tool_calls_of (events_since st st')
      = [EvCallTool (fn_name (tc_function tool_call)) args] /\
    model_calls_of (events_since st st') = [first_request query st tools] /\
    world st' = w3.
Proof.
  intros Hpath Hreason Hcalls Hargs Hcall Hcontent Hblock.
  rewrite (process_query_tool_call Hpath Hreason Hcalls Hargs), Hcall.
  destruct st as [w0 stack cfg mdl ses lg].
  unfold_monad. rewrite Hcontent. simpl.
  destruct block as [text|data mime|uri]; simpl.
  - exfalso. exact (Hblock text eq_refl).
  - do 2 eexists. split; [reflexivity|].
    unfold events_since; simpl; rewrite <- ?app_assoc;
      rewrite ?skipn_length_app; simpl. repeat split.
  - do 2 eexists. split; [reflexivity|].
    unfold events_since; simpl; rewrite <- ?app_assoc;
      rewrite ?skipn_length_app; simpl. repeat split.
Qed.

(** The exits [unwind] lists are those of the managers, in order, and with
    no exit that raises no exception is pending at the end. *)
Lemma unwind_exits (managers : list ContextManager) :
  forall (exc : option exn) (w : W),
    exited (snd (unwind env managers exc w)) = managers /\
    every is_exit (snd (unwind env managers exc w)).
Proof.
  induction managers as [|c below IH]; intros exc w; simpl.
  - split; reflexivity.
  - destruct (aexit env c exc w) as [r w'].
    destruct (IH (pending_after exc r) w') as (Hexited & Hevery).
    destruct (unwind env below (pending_after exc r) w') as [[final w''] exits].
    simpl in *. rewrite Hexited. split; [reflexivity | exact Hevery].
Qed.

Lemma unwind_no_raise (managers : list ContextManager) :
  (forall c exc w e, fst (aexit env c exc w) <> ExitRaise e) ->
  forall w : W, fst (fst (unwind env managers None w)) = None.
Proof.
  intros Hno. induction managers as [|c below IH]; intros w; simpl.
  - reflexivity.
  - pose proof (Hno c None w) as Hc.
    destruct (aexit env c None w) as [[| |e] w']; simpl in Hc.
    + specialize (IH w'). simpl.
      destruct (unwind env below None w') as [[final w''] exits]. exact IH.
    + specialize (IH w'). simpl.
      destruct (unwind env below None w') as [[final w''] exits]. exact IH.
    + exfalso. exact (Hc e eq_refl).
Qed.

(** X19: teardown exits everything that is registered.  From any state,
    [cleanup] applies to the world the exit of every context manager on the
    exit stack, the last entered first and each one once: each exit gets
    the world the exit before it left and the exception pending at its
    turn, so an exit that raises does not keep the exits below it from
    running.  [cleanup] calls nothing else, empties the stack, leaves the
    other fields of the client, and raises the exception pending at the
    end or, with none pending, returns; none is pending when no exit
    raises.  For a stack of two managers the two exits are written out. *)
Theorem cleanup_exits_everything (st : State W) :
  let final := fst (fst (unwind env (exit_stack st) None (world st))) in
  let left := snd (fst (unwind env (exit_stack st) None (world st))) in
  let exits := snd (unwind env (exit_stack st) None (world st)) in
  cleanup env st =
    (outcome_of final,
     mkState left [] (config st) (model st) (session st) (log st ++ exits)) /\
  exited exits = exit_stack st /\
  every is_exit exits /\
  ((forall c exc w e, fst (aexit env c exc w) <> ExitRaise e) -> final = None) /\
  (forall top below r1 w1 r2 w2,
     exit_stack st = [top; below] ->
     aexit env top None (world st) = (r1, w1) ->
     aexit env below (pending_after None r1) w1 = (r2, w2) ->
     cleanup env st =
       (outcome_of (pending_after (pending_after None r1) r2),
        mkState w2 [] (config st) (model st) (session st)
          (log st ++ [EvExit top None; EvExit below (pending_after None r1)]))).
Proof.
  intros final left exits. subst final left exits.
  split; [apply cleanup_unwinds|].
  destruct (unwind_exits (exit_stack st) None (world st)) as (Hexited & Hevery).
  split; [exact Hexited|]. split; [exact Hevery|]. split.
  - intros Hno. apply unwind_no_raise. exact Hno.
  - intros top below r1 w1 r2 w2 Hstack Htop Hbelow.
    rewrite cleanup_unwinds, Hstack. simpl. rewrite Htop, Hbelow. reflexivity.
Qed.

End Whole.


(** ** The rest of the program on concrete runs *)

Module MoreRuns.

Import Scenario.
Import Cases.



Lemma chat_loop_quits_witness :
  strip ("  " ++ wide_quit ++ nl) = "Quit" /\
  fst (chat_loop (play calm) 3 (typing [inr ("  " ++ wide_quit ++ nl)] []))
    = Returned tt.
Proof.
  assert (Hquit : lower (strip ("  " ++ wide_quit ++ nl)) = "quit")
    by (vm_compute; reflexivity).
  split; [vm_compute; reflexivity|].
  rewrite (@chat_loop_quits _ (play calm) 2
             (typing [inr ("  " ++ wide_quit ++ nl)] [])
             ("  " ++ wide_quit ++ nl) (mkStage [] []) eq_refl Hquit).
  reflexivity.
Defined.

(** The second reply requests a tool again and has no text. *)
Lemma chat_loop_body_answer_without_text_witness :
  exists st',
    process_query (play calm) "what tables exist?"
      (set_world (mkStage [inr (tool_reply [call_1; call_2]); inr (tool_reply [call_2])] [])
         (record (EvInput (nl ++ "Query: "))
            (typing [inr "what tables exist?"]
               [inr (tool_reply [call_1; call_2]); inr (tool_reply [call_2])])))
      = (Returned None, st') /\
    fst (chat_loop_body (play calm)
           (typing [inr "what tables exist?"]
              [inr (tool_reply [call_1; call_2]); inr (tool_reply [call_2])]))
      = Returned Continue.
Proof.
  eexists. split.
  - vm_compute. reflexivity.
  - erewrite (@chat_loop_body_answer_without_text _ (play calm)
                (typing [inr "what tables exist?"]
                   [inr (tool_reply [call_1; call_2]); inr (tool_reply [call_2])])
                _ "what tables exist?"
                (mkStage [inr (tool_reply [call_1; call_2]);
                          inr (tool_reply [call_2])] [])).
    + reflexivity.
    + reflexivity.
    + vm_compute. discriminate.
    + vm_compute. reflexivity.
Defined.

Lemma init_without_key_witness :
  fst (main (play keyless) 1 (fresh (mkStage [] []))) = Raised no_key_error /\
  events_since (fresh (mkStage [] []))
    (snd (main (play keyless) 1 (fresh (mkStage [] []))))
    = [EvReadConfig "config.json"].
Proof.
  destruct (@init_without_key _ (play keyless) 1 (fresh (mkStage [] []))
              one_server (mkStage [] []) eq_refl (or_introl eq_refl))
    as (_ & Hmain).
  rewrite Hmain. split; reflexivity.
Defined.

Lemma init_config_unreadable_witness :
  fst (init (play no_file) "config.json" (fresh (mkStage [] [])))
    = Raised (Exn FileNotFoundError ("❌ 配置文件 " ++ "config.json" ++ " 未找到")) /\
  fst (init (play bad_file) "config.json" (fresh (mkStage [] [])))
    = Raised (Exn ValueError ("❌ 配置文件 " ++ "config.json" ++ " 格式错误")).
Proof.
  split.
  - rewrite (proj1 (@init_config_unreadable _ (play no_file) "config.json"
                      (fresh (mkStage [] [])) _ (mkStage [] []) eq_refl) eq_refl).
    reflexivity.
  - rewrite (proj1 (proj2 (@init_config_unreadable _ (play bad_file) "config.json"
                             (fresh (mkStage [] [])) _ (mkStage [] []) eq_refl))
               eq_refl).
    reflexivity.
Defined.

Lemma init_constructs_witness :
  init (play calm) "config.json" (fresh (mkStage [] []))
    = (Returned tt,
       mkState (mkStage [] []) [] one_server (Some "gpt-4o") false
         [EvReadConfig "config.json"; EvOpenAI "sk-test" None]).
Proof.
  assert (Hkey : "sk-test" <> "") by discriminate.
  rewrite (@init_constructs _ (play calm) "config.json" (fresh (mkStage [] []))
             one_server (mkStage [] []) (mkStage [] []) "sk-test"
             eq_refl eq_refl Hkey eq_refl).
  reflexivity.
Defined.

Lemma launches_uv_run (env : Collaborators stage) :
  server_params_new env = server_params_new (play calm) ->
  launches env constructed "mcp-clickhouse" uv_fields uv_run.
Proof.
  intros Henv. split.
  - do 2 eexists. split; reflexivity.
  - rewrite Henv. reflexivity.
Defined.

Lemma connect_to_server_connects_witness :
  fst (connect_to_server (play calm) constructed) = Returned tt /\
  exit_stack (snd (connect_to_server (play calm) constructed))
    = [Session; Transport] /\
  session (snd (connect_to_server (play calm) constructed)) = true.
Proof.
  rewrite (@connect_to_server_connects _ (play calm) constructed "mcp-clickhouse"
             uv_fields uv_run (mkStage [] []) (mkStage [] []) (mkStage [] [])
             (mkStage [] []) [list_tables; run_query]
             (launches_uv_run (play calm) eq_refl) eq_refl eq_refl eq_refl eq_refl).
  repeat split.
Defined.

Lemma connect_to_server_failures_witness :
  fst (connect_to_server no_session constructed) = Raised handshake_error /\
  exit_stack (snd (connect_to_server no_session constructed)) = [Transport] /\
  session (snd (connect_to_server no_session constructed)) = false.
Proof.
  rewrite (proj1 (proj2 (@connect_to_server_failures _ no_session constructed
                           "mcp-clickhouse" uv_fields uv_run
                           (launches_uv_run no_session eq_refl)))
             handshake_error (mkStage [] []) (mkStage [] []) eq_refl eq_refl).
  repeat split.
Defined.

Lemma connect_to_server_rejects_entry_witness :
  fst (connect_to_server (play calm) odd_entry)
    = Raised (Exn AttributeError "'str' object has no attribute 'get'") /\
  exit_stack (snd (connect_to_server (play calm) odd_entry)) = [].
Proof.
  assert (Hodd : forall fields, VStr "uv run server" <> VDict fields)
    by (intros fields; discriminate).
  rewrite (proj1 (@connect_to_server_rejects_entry _ (play calm) odd_entry
                    [("mcpServers", VDict [("broken", VStr "uv run server")])]
                    "broken" (VStr "uv run server") [] eq_refl eq_refl) Hodd).
  split; reflexivity.
Defined.

Lemma main_prompts_after_connect_witness :
  prompts_of (events_since quits (snd (main (play calm) 1 quits))) <> [] /\
  exists st1 st2,
    init (play calm) "config.json" quits = (Returned tt, st1) /\
    connect_to_server (play calm) st1 = (Returned tt, st2) /\
    exit_stack st2 = [Session; Transport].
Proof.
  assert (Hprompt : prompts_of (events_since quits (snd (main (play calm) 1 quits)))
                    <> []) by (vm_compute; discriminate).
  split; [exact Hprompt|].
  exact (@main_prompts_after_connect _ (play calm) 1 quits Hprompt).
Defined.

Lemma get_server_name_and_config_messages_witness :
  fst (get_server_name_and_config no_server)
    = Raised (Exn ValueError (selection_prefix ++ no_server_message)) /\
  exn_cls (Exn ValueError (selection_prefix ++ no_server_message)) = ValueError.
Proof.
  assert (Hrun : fst (get_server_name_and_config no_server)
                 = Raised (Exn ValueError (selection_prefix ++ no_server_message)))
    by (vm_compute; reflexivity).
  split; [exact Hrun|].
  exact (proj1 (get_server_name_and_config_messages _ Hrun)).
Defined.

Lemma process_query_malformed_reply_witness :
  fst (process_query (play calm) "hello" flags_only)
    = Raised (Exn TypeError "'NoneType' object is not subscriptable") /\
  fst (process_query (play calm) "hello" (typing [] [inr empty_request]))
    = Raised (Exn IndexError "list index out of range").
Proof.
  assert (Hnone : first_reply (play calm) "hello" flags_only tools_of_calm
                    flagged_without_requests (mkStage [] [])).
  { split; [reflexivity|]. do 2 eexists. repeat split; reflexivity. }
  assert (Hempty : first_reply (play calm) "hello" (typing [] [inr empty_request])
                     tools_of_calm
                     (mkChoice "tool_calls" (mkChatCompletionMessage None (Some [])))
                     (mkStage [] [])).
  { split; [reflexivity|]. do 2 eexists. repeat split; reflexivity. }
  split.
  - rewrite (proj1 (process_query_malformed_reply Hnone eq_refl) eq_refl).
    reflexivity.
  - rewrite (proj2 (process_query_malformed_reply Hempty eq_refl) eq_refl).
    reflexivity.
Defined.

Lemma process_query_non_text_result_witness :
  exists message st',
    process_query (play image_result) "what tables exist?" asks_once
      = (Raised (Exn AttributeError message), st') /\
    model_calls_of (events_since asks_once st')
      = [first_request "what tables exist?" asks_once tools_of_calm].
Proof.
  assert (Hpath : first_reply (play image_result) "what tables exist?" asks_once
                    tools_of_calm requested_one
                    (mkStage [inr (text_reply "The table is missing.")] [])).
  { split; [reflexivity|]. do 2 eexists. repeat split; reflexivity. }
  assert (Himage : forall text,
             ImageContent "iVBORw0KGgo=" "image/png" <> TextContent text)
    by (intros text; discriminate).
  destruct (@process_query_non_text_result _ (play image_result)
              "what tables exist?" asks_once tools_of_calm requested_one _
              call_1 [] (VDict [])
              (mkCallToolResult [ImageContent "iVBORw0KGgo=" "image/png"] false)
              (mkStage [inr (text_reply "The table is missing.")] [])
              (ImageContent "iVBORw0KGgo=" "image/png") []
              Hpath eq_refl eq_refl eq_refl eq_refl eq_refl Himage)
    as (message & st' & Hrun & _ & Hmodel & _).
  exists message, st'. split; assumption.
Defined.

Lemma cleanup_exits_everything_witness :
  cleanup closing (typing [inr "never read"] [inr (text_reply "unused")])
    = (Returned tt,
       mkState (mkStage [] []) [] one_server (Some "gpt-4o") true
         [EvExit Session None; EvExit Transport None]).
Proof.
  exact (proj2 (proj2 (proj2 (proj2
           (@cleanup_exits_everything _ closing
              (typing [inr "never read"] [inr (text_reply "unused")])))))
           Session Transport ExitFalse (mkStage [] [inr "never read"])
           ExitFalse (mkStage [] []) eq_refl eq_refl eq_refl).
Defined.

End MoreRuns.
